(** * basechat: the chat component and the tenant-setup route

    A shallow embedding of

    - [src/components/chatbot/index.tsx], the React component [Chatbot]:
      its [useState] cells become one record [State], every effect and
      callback becomes a function [State -> State] that takes what the
      outside world delivered (a response, the stored item, a stream
      event) as an argument;
    - the route handler [POST] of the tenant-setup endpoint, written in a
      small state-and-exception monad over the persistent store. *)

From Stdlib Require Import String Ascii List Bool NArith Lia.
From stdpp Require Import base option list strings gmap.
Import ListNotations.

Open Scope string_scope.
Open Scope list_scope.

(** JavaScript truthiness of a string that may be [null] / [undefined]:
    falsy when missing or empty. *)
Definition truthy (s : option string) : bool :=
  match s with
  | Some s => negb (String.eqb s "")
  | None => false
  end.

(** The nullish coalescing operator [a ?? b]. *)
Definition nullish {A : Type} (a : option A) (b : A) : A :=
  match a with
  | Some x => x
  | None => b
  end.

Infix "??" := nullish (at level 45, left associativity).

Module Chatbot.

(** [LLMModel] is a string enum of [@/lib/llm/types]; a value of that
    TypeScript type can still be [undefined] at run time
    ([enabledModels[0]] of an empty array), hence [option LLMModel] for
    state cells that hold one. *)
Definition LLMModel : Type := string.

(** The tenant search settings, as the component reads them off
    [searchSettingsSchema.parse(data)]: [settings.isBreadth] and so on. *)
Record SearchSettings : Type := mkSearchSettings {
  settings_isBreadth : bool;
  settings_overrideBreadth : bool;
  settings_rerankEnabled : bool;
  settings_overrideRerank : bool;
  settings_prioritizeRecent : bool;
  settings_overridePrioritizeRecent : bool;
}.

(** The object [JSON.parse(saved)] of the ["chatSettings"] item.  A key
    that is absent or [null] is [None]; the save effect only ever writes
    booleans for the three flags. *)
Record StoredSettings : Type := mkStoredSettings {
  saved_isBreadth : option bool;
  saved_rerankEnabled : option bool;
  saved_prioritizeRecent : option bool;
  saved_selectedModel : option LLMModel;
}.

(** What [localStorage.getItem("chatSettings")] holds when the load effect
    runs.
    - [ItemAbsent]: [null] or the empty string, [if (saved)] fails;
    - [ItemUnusable]: [JSON.parse] throws, or yields [null] so that the
      first property read throws; either way the [catch] is reached before
      any setter ran;
    - [ItemObject]: every other parse result. *)
Inductive ChatSettingsItem : Type :=
| ItemAbsent
| ItemUnusable
| ItemObject (settings : StoredSettings).

(** The outcome of [fetch("/api/tenants/current")]. *)
Inductive TenantsCurrentResponse : Type :=
| ResOk (data : option SearchSettings)
    (* res.ok; [None] when res.json() or searchSettingsSchema.parse throws *)
| ResNotFound          (* status 404 *)
| ResOtherStatus       (* any other non-ok status *)
| ResRejected.         (* fetch itself throws *)

(** The [tenant] prop. *)
Record Tenant : Type := mkTenant {
  tenant_name : string;
  tenant_logoUrl : option string;
  tenant_slug : string;
  tenant_id : string;
  tenant_enabledModels : list LLMModel;
  tenant_searchSettingsId : option string;
}.

(** The correlation record of the in-flight response. *)
Record Pending : Type := mkPending {
  pending_id : string;
  pending_model : option LLMModel;   (* res.headers.get("x-model") may be null *)
}.

(** The body the component POSTs to the conversation endpoint. *)
Record CreateConversationMessageRequest : Type := mkPayload {
  payload_conversationId : string;
  payload_content : string;
  payload_model : LLMModel;
  payload_isBreadth : bool;
  payload_rerankEnabled : bool;
  payload_prioritizeRecent : bool;
}.

(** The streamed object, of which the component reads [message]. *)
Record ResponseObject : Type := mkResponseObject { object_message : string }.

(** The three boolean search flags, to state a property once for all of
    them. *)
Inductive Flag : Type := Breadth | Rerank | PrioritizeRecent.

Definition tenant_value (f : Flag) (s : SearchSettings) : bool :=
  match f with
  | Breadth => settings_isBreadth s
  | Rerank => settings_rerankEnabled s
  | PrioritizeRecent => settings_prioritizeRecent s
  end.

Definition override_allowed (f : Flag) (s : SearchSettings) : bool :=
  match f with
  | Breadth => settings_overrideBreadth s
  | Rerank => settings_overrideRerank s
  | PrioritizeRecent => settings_overridePrioritizeRecent s
  end.

Definition stored_flag (f : Flag) (s : StoredSettings) : option bool :=
  match f with
  | Breadth => saved_isBreadth s
  | Rerank => saved_rerankEnabled s
  | PrioritizeRecent => saved_prioritizeRecent s
  end.

(** The user's locally stored value of a flag, if there is one. *)
Definition stored_value (f : Flag) (item : ChatSettingsItem) : option bool :=
  match item with
  | ItemObject s => stored_flag f s
  | ItemAbsent | ItemUnusable => None
  end.

Section Component.

(** Declarations of the repository that are imported, not defined, by the
    component: the citation type of [./types], and of [@/lib/llm/types]
    the schema of known models and the provider table. *)
Context {SourceMetadata : Type}.
Context {Provider : Type}.
Variable modelSchema_safeParse : LLMModel -> bool.
Variable getProviderForModel : LLMModel -> option Provider.

Record AiMessage : Type := mkAi {
  ai_content : string;
  ai_id : option string;
  ai_sources : list SourceMetadata;
  ai_model : option LLMModel;
}.

Inductive Message : Type :=
| Assistant (m : AiMessage)
| User (content : string)
| System (content : string).

(** The component's state: one field per [useState] cell, and
    [isLoading] as [useObject] reports it. *)
Record State : Type := mkState {
  messages : list Message;
  sourceCache : gmap string (list SourceMetadata);
  pendingMessage : option Pending;
  selectedModel : option LLMModel;
  isBreadth : bool;
  rerankEnabled : bool;
  prioritizeRecent : bool;
  tenantSearchSettings : option SearchSettings;
  isLoadingSettings : bool;
  isLoading : bool;
}.

Definition setMessages (v : list Message) (st : State) : State :=
  mkState v (sourceCache st) (pendingMessage st) (selectedModel st)
          (isBreadth st) (rerankEnabled st) (prioritizeRecent st)
          (tenantSearchSettings st) (isLoadingSettings st) (isLoading st).

Definition setSourceCache (v : gmap string (list SourceMetadata)) (st : State)
  : State :=
  mkState (messages st) v (pendingMessage st) (selectedModel st)
          (isBreadth st) (rerankEnabled st) (prioritizeRecent st)
          (tenantSearchSettings st) (isLoadingSettings st) (isLoading st).

Definition setPendingMessage (v : option Pending) (st : State) : State :=
  mkState (messages st) (sourceCache st) v (selectedModel st)
          (isBreadth st) (rerankEnabled st) (prioritizeRecent st)
          (tenantSearchSettings st) (isLoadingSettings st) (isLoading st).

Definition setSelectedModel (v : option LLMModel) (st : State) : State :=
  mkState (messages st) (sourceCache st) (pendingMessage st) v
          (isBreadth st) (rerankEnabled st) (prioritizeRecent st)
          (tenantSearchSettings st) (isLoadingSettings st) (isLoading st).

Definition setIsBreadth (v : bool) (st : State) : State :=
  mkState (messages st) (sourceCache st) (pendingMessage st) (selectedModel st)
          v (rerankEnabled st) (prioritizeRecent st)
          (tenantSearchSettings st) (isLoadingSettings st) (isLoading st).

Definition setRerankEnabled (v : bool) (st : State) : State :=
  mkState (messages st) (sourceCache st) (pendingMessage st) (selectedModel st)
          (isBreadth st) v (prioritizeRecent st)
          (tenantSearchSettings st) (isLoadingSettings st) (isLoading st).

Definition setPrioritizeRecent (v : bool) (st : State) : State :=
  mkState (messages st) (sourceCache st) (pendingMessage st) (selectedModel st)
          (isBreadth st) (rerankEnabled st) v
          (tenantSearchSettings st) (isLoadingSettings st) (isLoading st).

Definition setTenantSearchSettings (v : option SearchSettings) (st : State)
  : State :=
  mkState (messages st) (sourceCache st) (pendingMessage st) (selectedModel st)
          (isBreadth st) (rerankEnabled st) (prioritizeRecent st)
          v (isLoadingSettings st) (isLoading st).

Definition setIsLoadingSettings (v : bool) (st : State) : State :=
  mkState (messages st) (sourceCache st) (pendingMessage st) (selectedModel st)
          (isBreadth st) (rerankEnabled st) (prioritizeRecent st)
          (tenantSearchSettings st) v (isLoading st).

Definition setIsLoading (v : bool) (st : State) : State :=
  mkState (messages st) (sourceCache st) (pendingMessage st) (selectedModel st)
          (isBreadth st) (rerankEnabled st) (prioritizeRecent st)
          (tenantSearchSettings st) (isLoadingSettings st) v.

(** The effective value of a flag: the state cell the payload is built
    from. *)
Definition flag (f : Flag) (st : State) : bool :=
  match f with
  | Breadth => isBreadth st
  | Rerank => rerankEnabled st
  | PrioritizeRecent => prioritizeRecent st
  end.

(** ** Model selection *)

(** [Array.prototype.includes] on the enabled models, for a value that may
    be [undefined]. *)
Definition includes (models : list LLMModel) (m : option LLMModel) : bool :=
  match m with
  | Some m => existsb (String.eqb m) models
  | None => false
  end.

(** [tenant.enabledModels[0]]: [undefined] on an empty array. *)
Definition first_enabled (tenant : Tenant) : option LLMModel :=
  tenant_enabledModels tenant !! 0%nat.

(** The initializer of the [selectedModel] cell. *)
Definition selectedModel_init (tenant : Tenant) (initialModel : LLMModel)
  : option LLMModel :=
  if (0 <? length (tenant_enabledModels tenant))%nat then
    if modelSchema_safeParse initialModel
       && includes (tenant_enabledModels tenant) (Some initialModel)
    then Some initialModel
    else first_enabled tenant
  else Some initialModel.

(** The effect "Ensure selected model is in enabled models list". *)
Definition enforceEnabledModel (tenant : Tenant) (st : State) : State :=
  if negb (includes (tenant_enabledModels tenant) (selectedModel st))
  then setSelectedModel (first_enabled tenant) st
  else st.

(** The state of the first render. *)
Definition initialState (tenant : Tenant) (initialModel : LLMModel) : State :=
  {| messages := [];
     sourceCache := ∅;
     pendingMessage := None;
     selectedModel := selectedModel_init tenant initialModel;
     isBreadth := false;
     rerankEnabled := false;
     prioritizeRecent := false;
     tenantSearchSettings := None;
     isLoadingSettings := true;
     isLoading := false |}.

(** ** Settings resolution *)

(** The effect "Fetch tenant search settings", given what the fetch
    delivered.  The [finally] block runs on every path. *)
Definition fetchTenantSearchSettings
    (tenant : Tenant) (res : TenantsCurrentResponse) (st : State) : State :=
  if negb (truthy (tenant_searchSettingsId tenant)) then
    setIsLoadingSettings false st
  else
    let st :=
      match res with
      | ResOk (Some settings) =>
          let st := setTenantSearchSettings (Some settings) st in
          let st :=
            if negb (settings_overrideBreadth settings)
            then setIsBreadth (settings_isBreadth settings) st else st in
          let st :=
            if negb (settings_overrideRerank settings)
            then setRerankEnabled (settings_rerankEnabled settings) st
            else st in
          let st :=
            if negb (settings_overridePrioritizeRecent settings)
            then setPrioritizeRecent (settings_prioritizeRecent settings) st
            else st in
          st
      | ResOk None => st          (* caught and logged *)
      | ResNotFound => st         (* logged *)
      | ResOtherStatus => st
      | ResRejected => st         (* caught and logged *)
      end in
    setIsLoadingSettings false st.

(** [!tenantSearchSettings || tenantSearchSettings.override...] *)
Definition user_may_set (f : Flag) (st : State) : bool :=
  match tenantSearchSettings st with
  | None => true
  | Some s => override_allowed f s
  end.

(** The effect "Load user settings from localStorage". *)
Definition loadUserSettings
    (initialModel : LLMModel) (saved : ChatSettingsItem) (st : State) : State :=
  if isLoadingSettings st then st
  else
    match saved with
    | ItemAbsent => st
    | ItemUnusable => st
    | ItemObject settings =>
        let st :=
          if user_may_set Breadth st
          then setIsBreadth (saved_isBreadth settings ?? false) st
          else st in
        let st :=
          if user_may_set Rerank st
          then setRerankEnabled (saved_rerankEnabled settings ?? false) st
          else st in
        let st :=
          if user_may_set PrioritizeRecent st
          then setPrioritizeRecent
                 (saved_prioritizeRecent settings ?? false) st
          else st in
        setSelectedModel
          (Some (saved_selectedModel settings ?? initialModel)) st
    end.

(** Settings resolution on mount: the fetch effect settles, which clears
    [isLoadingSettings] and lets the load effect through. *)
Definition resolveSettings
    (tenant : Tenant) (initialModel : LLMModel)
    (res : TenantsCurrentResponse) (saved : ChatSettingsItem) (st : State)
  : State :=
  loadUserSettings initialModel saved (fetchTenantSearchSettings tenant res st).

(** ** Chat orchestration *)

(** [submit] of [useObject]: the hook starts loading and sends the
    payload. *)
Definition submit (payload : CreateConversationMessageRequest) (st : State)
  : State * option CreateConversationMessageRequest :=
  (setIsLoading true st, Some payload).

(** [handleSubmit]: returns the next state and the payload submitted, if
    any. *)
Definition handleSubmit
    (conversationId : string) (content : string) (model : LLMModel) (st : State)
  : State * option CreateConversationMessageRequest :=
  match getProviderForModel model with
  | None => (st, None)       (* console.error, return *)
  | Some provider =>
      let payload :=
        mkPayload
          conversationId content model
          (isBreadth st) (rerankEnabled st) (prioritizeRecent st) in
      submit payload (setMessages (messages st ++ [User content]) st)
  end.

(** The [fetch] middleware of [useObject], given the two response headers.
    [assert(id)] throws on a missing or empty id, before the setter. *)
Definition middleware (x_message_id x_model : option string) (st : State)
  : State :=
  match x_message_id with
  | Some id =>
      if String.eqb id "" then st
      else setPendingMessage (Some (mkPending id x_model)) st
  | None => st
  end.

(** [pendingMessageRef.current?.model], for a state that has been rendered
    since its last update: the ref is assigned during render (lines 50-51)
    and then holds the [pendingMessage] of this state.  [onFinish_at] below
    takes the value of the ref as it is. *)
Definition pendingRef_model (st : State) : option LLMModel :=
  match pendingMessage st with
  | Some p => pending_model p
  | None => None
  end.

(** [onFinish], given [event.object]. *)
Definition onFinish (object : option ResponseObject) (st : State) : State :=
  match object with
  | None => st
  | Some o =>
      let content := object_message o in
      let model := pendingRef_model st in
      setMessages (messages st ++ [Assistant (mkAi content None [] model)]) st
  end.

(** [const last = copy.pop()]: the array without its last element, and
    that element ([undefined] on an empty array). *)
Fixpoint pop {A : Type} (l : list A) : list A * option A :=
  match l with
  | [] => ([], None)
  | [x] => ([], Some x)
  | x :: l' => let '(copy, last) := pop l' in (x :: copy, last)
  end.

Definition with_id (id : string) (m : AiMessage) : AiMessage :=
  mkAi (ai_content m) (Some id) (ai_sources m) (ai_model m).

(** The effect on [pendingMessage, isLoading, messages] that stamps the
    finalized message. *)
Definition stampPending (st : State) : State :=
  match pendingMessage st with
  | None => st
  | Some pending =>
      if isLoading st then st
      else
        match pop (messages st) with
        | (copy, Some (Assistant last)) =>
            setPendingMessage None
              (setMessages (copy ++ [Assistant (with_id (pending_id pending) last)])
                 st)
        | _ => st
        end
  end.

(** The side fetch of the citations settled with [res.ok]:
    [setSourceCache(prev => ({ ...prev, [json.id]: json.sources }))]. *)
Definition cacheSources (json_id : string) (json_sources : list SourceMetadata)
    (st : State) : State :=
  setSourceCache (<[json_id := json_sources]> (sourceCache st)) st.

Definition shown (m : Message) : bool :=
  match m with
  | User _ | Assistant _ => true
  | System _ => false
  end.

Definition with_sources (sources : list SourceMetadata) (m : AiMessage)
  : AiMessage :=
  mkAi (ai_content m) (ai_id m) sources (ai_model m).

(** The mapping function of [messagesWithSources]:
    [m.role === "assistant" && m.id && sourceCache[m.id]].  The cache is
    read as the map of its own keys: an id that names a member of
    [Object.prototype] and has no key of its own in the cache would find
    the inherited member instead, which is not a list of citations. *)
Definition attachSources (cache : gmap string (list SourceMetadata))
    (m : Message) : Message :=
  match m with
  | Assistant a =>
      match ai_id a with
      | Some id =>
          if String.eqb id "" then m
          else
            match cache !! id with
            | Some sources => Assistant (with_sources sources a)
            | None => m
            end
      | None => m
      end
  | _ => m
  end.

Definition messagesWithSources (st : State) : list Message :=
  map (attachSources (sourceCache st)) (List.filter shown (messages st)).

(** ** The component as a transition system

    Everything that can change the state after the first render.  An event
    acts on the state as last rendered: the closures of the callbacks and
    the ref are those of a render that follows the previous event. *)
Inductive Event : Type :=
| SettingsFetched (res : TenantsCurrentResponse)
| SettingsLoaded (saved : ChatSettingsItem)
| TranscriptLoaded (loaded : list Message)
| Submitted (content : string) (model : LLMModel)
| HeadersReceived (x_message_id x_model : option string)
| StreamFinished (object : option ResponseObject)
| StreamFailed
| StampEffect
| SourcesFetched (json_id : string) (json_sources : list SourceMetadata)
| ModelChanged (model : LLMModel)
| FlagChanged (f : Flag) (value : bool)
| EnforceModelEffect.

Definition setFlag (f : Flag) (v : bool) (st : State) : State :=
  match f with
  | Breadth => setIsBreadth v st
  | Rerank => setRerankEnabled v st
  | PrioritizeRecent => setPrioritizeRecent v st
  end.

Definition step (tenant : Tenant) (conversationId : string)
    (initialModel : LLMModel) (e : Event) (st : State) : State :=
  match e with
  | SettingsFetched res => fetchTenantSearchSettings tenant res st
  | SettingsLoaded saved => loadUserSettings initialModel saved st
  | TranscriptLoaded loaded => setMessages loaded st
  | Submitted content model => fst (handleSubmit conversationId content model st)
  | HeadersReceived id model => middleware id model st
  | StreamFinished object => setIsLoading false (onFinish object st)
  | StreamFailed => setIsLoading false st
  | StampEffect => stampPending st
  | SourcesFetched id sources => cacheSources id sources st
  | ModelChanged model => setSelectedModel (Some model) st
  | FlagChanged f v => setFlag f v st
  | EnforceModelEffect => enforceEnabledModel tenant st
  end.

Definition run (tenant : Tenant) (conversationId : string)
    (initialModel : LLMModel) (es : list Event) (st : State) : State :=
  fold_left (fun st e => step tenant conversationId initialModel e st) es st.

(** Transcript counts by role. *)
Definition is_user (m : Message) : bool :=
  match m with User _ => true | _ => false end.

Definition is_assistant (m : Message) : bool :=
  match m with Assistant _ => true | _ => false end.

Definition count_role (p : Message -> bool) (st : State) : nat :=
  length (List.filter p (messages st)).

(** The id of a transcript entry; only assistant entries carry one. *)
Definition message_id (m : Message) : option string :=
  match m with
  | Assistant a => ai_id a
  | User _ | System _ => None
  end.

(** ** Persisting the settings *)

(** The effect "Save user settings to localStorage", as the object a later
    [JSON.parse] of the written item yields; [None] when the guard returns
    before [setItem].  [JSON.stringify] drops the key of an [undefined]
    model. *)
Definition saveUserSettings (st : State) : option StoredSettings :=
  if isLoadingSettings st then None
  else Some (mkStoredSettings (Some (isBreadth st)) (Some (rerankEnabled st))
                              (Some (prioritizeRecent st)) (selectedModel st)).

(** The flag as the submitted payload carries it. *)
Definition payload_flag (f : Flag) (p : CreateConversationMessageRequest)
  : bool :=
  match f with
  | Breadth => payload_isBreadth p
  | Rerank => payload_rerankEnabled p
  | PrioritizeRecent => payload_prioritizeRecent p
  end.

(** ** Views of the transcript *)

Inductive Role : Type := RoleAssistant | RoleUser | RoleSystem.

Definition message_role (m : Message) : Role :=
  match m with
  | Assistant _ => RoleAssistant
  | User _ => RoleUser
  | System _ => RoleSystem
  end.

Definition message_content (m : Message) : string :=
  match m with
  | Assistant a => ai_content a
  | User c => c
  | System c => c
  end.

(** Who said what, in order. *)
Definition transcript_text (st : State) : list (Role * string) :=
  map (fun m => (message_role m, message_content m)) (messages st).

(** An entry without its citations. *)
Definition strip_sources (m : Message) : Message :=
  match m with
  | Assistant a => Assistant (with_sources [] a)
  | _ => m
  end.

(** The pending record, if any, carries a non-empty id. *)
Definition pending_id_nonempty (st : State) : bool :=
  match pendingMessage st with
  | Some p => negb (String.eqb (pending_id p) "")
  | None => true
  end.

Definition is_transcript_load (e : Event) : bool :=
  match e with
  | TranscriptLoaded _ => true
  | _ => false
  end.

(** The event caches citations under the given id. *)
Definition fetches_sources_for (id : string) (e : Event) : bool :=
  match e with
  | SourcesFetched i _ => String.eqb i id
  | _ => false
  end.

(** One submission that goes well: submit, response headers, end of the
    stream with an object, stamp effect. *)
Definition answered_cycle (content : string) (model : LLMModel)
    (x_message_id x_model : option string) (object : option ResponseObject)
  : list Event :=
  [Submitted content model;
   HeadersReceived x_message_id x_model;
   StreamFinished object;
   StampEffect].

(** ** What is rendered *)

(** [a || b] on strings that may be [undefined]. *)
Definition or_else (a b : option string) : option string :=
  if truthy a then a else b.

(** The props [AssistantMessage] is given that depend on the state. *)
Record AssistantProps : Type := mkProps {
  props_content : option string;
  props_id : option string;
  props_sources : list SourceMetadata;
  props_model : option LLMModel;
  props_isGenerating : bool;
}.

Inductive Element : Type :=
| UserElement (content : string)
| AssistantElement (props : AssistantProps).

(** The element of one entry of [messagesWithSources]: the ternary on
    [message.role === "user"].  A system entry would take the assistant
    branch; the filter lets none through. *)
Definition render_message (st : State) (m : Message) : Element :=
  match m with
  | User content => UserElement content
  | Assistant a =>
      AssistantElement
        (mkProps (Some (ai_content a)) (ai_id a) (ai_sources a)
                 (or_else (ai_model a) (selectedModel st)) false)
  | System content =>
      AssistantElement
        (mkProps (Some content) None [] (or_else None (selectedModel st)) false)
  end.

(** The provisional answer shown while [isLoading], given
    [object?.message] of the hook. *)
Definition provisional (streamed : option string) (st : State) : Element :=
  AssistantElement
    (mkProps streamed
             (option_map pending_id (pendingMessage st))
             []
             (or_else (pendingRef_model st) (selectedModel st))
             true).

(** The children of the message column. *)
Definition render (streamed : option string) (st : State) : list Element :=
  map (render_message st) (messagesWithSources st)
  ++ (if isLoading st then [provisional streamed st] else []).

Definition is_generating (e : Element) : bool :=
  match e with
  | AssistantElement props => props_isGenerating props
  | UserElement _ => false
  end.

(** ** The ref and the stream's end *)

(** [current?.model] for the value of [pendingMessageRef.current]. *)
Definition ref_model (current : option Pending) : option LLMModel :=
  match current with
  | Some p => pending_model p
  | None => None
  end.

(** [onFinish], given [event.object] and the value
    [pendingMessageRef.current] has when the callback runs.  The ref is
    assigned during render (lines 50-51), so this is the [pendingMessage]
    of the last render, not necessarily that of the latest update. *)
Definition onFinish_at (current : option Pending)
    (object : option ResponseObject) (st : State) : State :=
  match object with
  | None => st
  | Some o =>
      let content := object_message o in
      let model := ref_model current in
      setMessages (messages st ++ [Assistant (mkAi content None [] model)]) st
  end.

(** One submission that goes well, step by step, with the value the ref
    has when the stream ends: [handleSubmit], the middleware, the end of the
    stream, the stamp effect. *)
Definition answered_at (conversationId : string) (current : option Pending)
    (content : string) (model : LLMModel) (id : string)
    (x_model : option string) (o : ResponseObject) (st : State) : State :=
  stampPending
    (setIsLoading false
       (onFinish_at current (Some o)
          (middleware (Some id) x_model
             (fst (handleSubmit conversationId content model st))))).



End Component.

(** A concrete setting for examples: citations are document names, two
    models are known, each with its provider. *)
Definition demo_safeParse (m : LLMModel) : bool :=
  String.eqb m "gpt-4" || String.eqb m "claude".

Definition demo_provider (m : LLMModel) : option string :=
  if String.eqb m "gpt-4" then Some "openai"
  else if String.eqb m "claude" then Some "anthropic"
  else None.

Definition demo_tenant : Tenant :=
  mkTenant "Acme" None "acme" "t-1" ["gpt-4"; "claude"] (Some "ss-1").

Definition demo_state : State (SourceMetadata := string) :=
  initialState demo_safeParse demo_tenant "gpt-4".

(** Tenant settings that fix nothing: every flag is [true] and the user
    may override each. *)
Definition demo_settings_overridable : SearchSettings :=
  mkSearchSettings true true true true true true.

(** The state right after the user submitted "Hello" with an enabled
    model. *)
Definition demo_submitted : State (SourceMetadata := string) :=
  fst (handleSubmit demo_provider "c-1" "Hello" "gpt-4" demo_state).

(** A session in which the settings are loaded and the user has switched
    breadth on. *)
Definition demo_loaded : State (SourceMetadata := string) :=
  setIsLoadingSettings false (setIsBreadth true demo_state).

Definition demo_tenant_without_models : Tenant :=
  mkTenant "Acme" None "acme" "t-1" [] None.

(** A transcript whose last entry is the finalized, not yet stamped
    answer, with the record of its response still pending. *)
Definition demo_answered : State (SourceMetadata := string) :=
  setPendingMessage (Some (mkPending "m-7" (Some "gpt-4")))
    (setMessages [User "Hello"; Assistant (mkAi "Hi" None [] (Some "gpt-4"))]
       demo_state).

(** A transcript with two stamped answers and citations cached for the
    first one only. *)
Definition demo_cited : State (SourceMetadata := string) :=
  setSourceCache {[ "m-1" := ["handbook.pdf"] ]}
    (setMessages
       [User "Hello";
        Assistant (mkAi "Hi" (Some "m-1") [] (Some "gpt-4"));
        System "note";
        User "More";
        Assistant (mkAi "Sure" (Some "m-2") ["old.txt"] (Some "gpt-4"))]
       demo_state).

End Chatbot.

Module TenantSetup.

(** ** Strings and the schema *)

(** A JavaScript string is a sequence of UTF-16 code units. *)
Definition JsString : Type := list N.

(** A literal, for ASCII text. *)
Definition js (s : string) : JsString :=
  map N_of_ascii (list_ascii_of_string s).

(** The code units [String.prototype.trim] strips: ECMAScript WhiteSpace
    and LineTerminator. *)
Definition isWhiteSpace (c : N) : bool :=
  ((9 <=? c) && (c <=? 13)          (* TAB, LF, VT, FF, CR *)
   || (c =? 32)                     (* SPACE *)
   || (c =? 160)                    (* NO-BREAK SPACE *)
   || (c =? 5760)                   (* U+1680 *)
   || (8192 <=? c) && (c <=? 8202)  (* U+2000 .. U+200A *)
   || (c =? 8232) || (c =? 8233)    (* U+2028, U+2029 *)
   || (c =? 8239)                   (* U+202F *)
   || (c =? 8287)                   (* U+205F *)
   || (c =? 12288)                  (* U+3000 *)
   || (c =? 65279))%N.              (* U+FEFF *)

Fixpoint trimStart (s : JsString) : JsString :=
  match s with
  | [] => []
  | c :: s' => if isWhiteSpace c then trimStart s' else s
  end.

Definition trimEnd (s : JsString) : JsString := rev (trimStart (rev s)).

Definition trim (s : JsString) : JsString := trimEnd (trimStart s).

(** "Empty or whitespace-only". *)
Definition blank (s : JsString) : bool := forallb isWhiteSpace s.

(** What [setupSchema] inspects of the value [request.json()] resolves
    to: whether it is an object, and its [name] property. *)
Inductive NameProperty : Type :=
| NameMissing
| NameNotAString
| NameString (s : JsString).

Inductive RequestBody : Type :=
| BodyNotJson                          (* request.json() rejects *)
| BodyNotAnObject                      (* null, a number, a string, an array *)
| BodyObject (name : NameProperty).

Inductive JsonValue : Type :=
| NotAnObject
| Object (name : NameProperty).

Record Payload : Type := mkSetupPayload { name : JsString }.

Definition UserId : Type := string.
Definition TenantId : Type := nat.
Definition ProfileId : Type := nat.

Record Session : Type := mkSession { user_id : UserId }.

Record NextRequest : Type := mkRequest {
  session : option Session;      (* the valid session of the caller, if any *)
  body : RequestBody;
}.

(** [Response.json({ id: tenantId })] *)
Record Response : Type := Response_json { id : TenantId }.

(** ** The world of the handler *)

Record TenantRow : Type := mkTenantRow {
  tenant_row_id : TenantId;
  tenant_row_name : JsString;
}.

Record ProfileRow : Type := mkProfileRow {
  profile_row_id : ProfileId;
  profile_row_userId : UserId;
  profile_row_tenantId : TenantId;
}.

(** Modelled from the spec: the persistent store behind [@/lib/service],
    which is not among the sources.  Tenants, profiles (each owned by a
    user and associated with a tenant), and per user the pointer to the
    current profile. *)
Record Store : Type := mkStore {
  tenants : list TenantRow;
  profiles : list ProfileRow;
  currentProfileId : gmap UserId ProfileId;
}.

Inductive ServiceOp : Type := OpCreateTenant | OpSetCurrentProfileId.

(** The calls the handler awaits, in the order it made them. *)
Inductive Call : Type :=
| CallRequireSession
| CallRequestJson
| CallCreateTenant (userId : UserId) (name : JsString)
| CallSetCurrentProfileId (userId : UserId) (profileId : ProfileId).

(** The store, the calls made so far, and which service operations the
    backend fails to carry out during this request. *)
Record World : Type := mkWorld {
  store : Store;
  trace : list Call;
  outage : ServiceOp -> bool;
}.

Inductive Error : Type :=
| Unauthorized     (* requireSession *)
| SyntaxError      (* request.json() *)
| ZodError         (* setupSchema.parse *)
| ServiceError.    (* a service operation rejects *)

(** An async function that may throw: the world it leaves, and either
    the exception or the value. *)
Definition Handler (A : Type) : Type := World -> World * (Error + A).

Definition ret {A : Type} (a : A) : Handler A := fun w => (w, inr a).

Definition throw {A : Type} (e : Error) : Handler A := fun w => (w, inl e).

Definition bind {A B : Type} (m : Handler A) (k : A -> Handler B) : Handler B :=
  fun w =>
    match m w with
    | (w', inr a) => k a w'
    | (w', inl e) => (w', inl e)
    end.

Notation "x <- m ;; k" := (bind m (fun x => k))
  (at level 100, m at next level, right associativity).

Definition record (c : Call) : Handler unit :=
  fun w => (mkWorld (store w) (trace w ++ [c]) (outage w), inr tt).

Definition getStore : Handler Store := fun w => (w, inr (store w)).

Definition putStore (s : Store) : Handler unit :=
  fun w => (mkWorld s (trace w) (outage w), inr tt).

Definition failing (op : ServiceOp) : Handler bool :=
  fun w => (w, inr (outage w op)).

(** Modelled from the spec: [requireSession] of [@/lib/server-utils],
    which is not among the sources.  "Resolves the current request's
    authenticated user; fails (request rejected) when no valid session
    exists." *)
Definition requireSession (request : NextRequest) : Handler Session :=
  _ <- record CallRequireSession ;;
  match session request with
  | Some s => ret s
  | None => throw Unauthorized
  end.

(** [request.json()] *)
Definition request_json (request : NextRequest) : Handler JsonValue :=
  _ <- record CallRequestJson ;;
  match body request with
  | BodyNotJson => throw SyntaxError
  | BodyNotAnObject => ret NotAnObject
  | BodyObject n => ret (Object n)
  end.

(** [z.string().trim().min(1)]: the checks run in order on the value the
    previous one left. *)
Definition name_schema (v : NameProperty) : Handler JsString :=
  match v with
  | NameString s =>
      let s := trim s in
      if (length s <? 1)%nat then throw ZodError else ret s
  | NameMissing | NameNotAString => throw ZodError
  end.

(** [setupSchema.parse] *)
Definition setupSchema_parse (v : JsonValue) : Handler Payload :=
  match v with
  | NotAnObject => throw ZodError
  | Object n => s <- name_schema n ;; ret (mkSetupPayload s)
  end.

(** Modelled from the spec: [createTenant] of [@/lib/service], which is
    not among the sources.  "Creates a new tenant record and an associated
    user profile"; the identifiers are the next free ones.  A call the
    backend does not carry out rejects and leaves the store as it was. *)
Definition createTenant (userId : UserId) (name : JsString)
  : Handler (ProfileId * TenantId) :=
  _ <- record (CallCreateTenant userId name) ;;
  down <- failing OpCreateTenant ;;
  if down : bool then throw ServiceError
  else
    s <- getStore ;;
    let tenantId := length (tenants s) in
    let profileId := length (profiles s) in
    _ <- putStore (mkStore (tenants s ++ [mkTenantRow tenantId name])
                           (profiles s ++ [mkProfileRow profileId userId tenantId])
                           (currentProfileId s)) ;;
    ret (profileId, tenantId).

(** Modelled from the spec: [setCurrentProfileId] of [@/lib/service],
    which is not among the sources.  "Marks that profile as the caller's
    active profile", a pointer stored per user.  A call the backend does
    not carry out rejects and leaves the store as it was. *)
Definition setCurrentProfileId (userId : UserId) (profileId : ProfileId)
  : Handler unit :=
  _ <- record (CallSetCurrentProfileId userId profileId) ;;
  down <- failing OpSetCurrentProfileId ;;
  if down : bool then throw ServiceError
  else
    s <- getStore ;;
    putStore (mkStore (tenants s) (profiles s)
                      (<[userId := profileId]> (currentProfileId s))).

(** The route handler. *)
Definition POST (request : NextRequest) : Handler Response :=
  session <- requireSession request ;;
  json <- request_json request ;;
  payload <- setupSchema_parse json ;;
  created <- createTenant (user_id session) (name payload) ;;
  let '(profileId, tenantId) := created in
  _ <- setCurrentProfileId (user_id session) profileId ;;
  ret (Response_json tenantId).

(** A backend that carries out every operation. *)
Definition healthy (w : World) : Prop := forall op, outage w op = false.

(** Worlds for examples: an empty store behind a backend that works, and
    behind one that creates tenants but cannot move the profile
    pointer. *)
Definition demo_world : World :=
  mkWorld (mkStore [] [] ∅) [] (fun _ => false).

Definition demo_world_pointer_down : World :=
  mkWorld (mkStore [] [] ∅) []
          (fun op => match op with
                     | OpSetCurrentProfileId => true
                     | OpCreateTenant => false
                     end).

Definition demo_world_create_down : World :=
  mkWorld (mkStore [] [] ∅) []
          (fun op => match op with
                     | OpCreateTenant => true
                     | OpSetCurrentProfileId => false
                     end).

Definition demo_request (name : string) : NextRequest :=
  mkRequest (Some (mkSession "u-1")) (BodyObject (NameString (js name))).

(** The string neither starts nor ends with a whitespace code unit. *)
Definition no_outer_whitespace (n : JsString) : bool :=
  match n with
  | [] => true
  | c :: _ => negb (isWhiteSpace c) && negb (isWhiteSpace (List.last n c))
  end.

(** The name the schema lets through, if the body has one. *)
Definition accepted_name (b : RequestBody) : option JsString :=
  match b with
  | BodyObject (NameString s) => if blank s then None else Some (trim s)
  | _ => None
  end.

Definition is_service_call (c : Call) : bool :=
  match c with
  | CallCreateTenant _ _ | CallSetCurrentProfileId _ _ => true
  | CallRequireSession | CallRequestJson => false
  end.

End TenantSetup.

(** * Properties of the chat component *)

Module ChatbotFacts.
Import Chatbot.

Section Facts.

Context {SourceMetadata : Type}.
Context {Provider : Type}.
Variable modelSchema_safeParse : LLMModel -> bool.
Variable getProviderForModel : LLMModel -> option Provider.

Abbreviation State := (State (SourceMetadata := SourceMetadata)).
Abbreviation Message := (Message (SourceMetadata := SourceMetadata)).

(** Decide the conditionals of an effect once the settings are known. *)
Ltac by_cases :=
  simpl;
  repeat (match goal with
          | |- context [if ?c then _ else _] => destruct c
          end; simpl);
  try discriminate; try reflexivity.

(** ** Settings resolution *)

Lemma fetch_clears_loading tenant res (st : State) :
  isLoadingSettings (fetchTenantSearchSettings tenant res st) = false.
Proof.
  unfold fetchTenantSearchSettings.
  destruct (negb (truthy (tenant_searchSettingsId tenant))); reflexivity.
Qed.

Lemma fetch_ok_settings tenant settings (st : State) :
  truthy (tenant_searchSettingsId tenant) = true ->
  tenantSearchSettings
    (fetchTenantSearchSettings tenant (ResOk (Some settings)) st)
  = Some settings.
Proof.
  intros Hid. unfold fetchTenantSearchSettings. rewrite Hid. simpl.
  destruct settings as [b ob r or p op]; simpl.
  destruct ob, or, op; reflexivity.
Qed.

Lemma fetch_ok_fixed_flag f tenant settings (st : State) :
  truthy (tenant_searchSettingsId tenant) = true ->
  override_allowed f settings = false ->
  flag f (fetchTenantSearchSettings tenant (ResOk (Some settings)) st)
  = tenant_value f settings.
Proof.
  intros Hid Hov. unfold fetchTenantSearchSettings. rewrite Hid. simpl.
  destruct settings as [b ob r or p op].
  destruct f; simpl in *; subst; by_cases.
Qed.

Lemma fetch_ok_free_flag f tenant settings (st : State) :
  truthy (tenant_searchSettingsId tenant) = true ->
  override_allowed f settings = true ->
  flag f (fetchTenantSearchSettings tenant (ResOk (Some settings)) st)
  = flag f st.
Proof.
  intros Hid Hov. unfold fetchTenantSearchSettings. rewrite Hid. simpl.
  destruct settings as [b ob r or p op].
  destruct f; simpl in *; subst; by_cases.
Qed.

(** The load effect leaves alone every flag the tenant has fixed. *)
Lemma load_keeps_fixed_flag f initialModel saved settings (st : State) :
  tenantSearchSettings st = Some settings ->
  override_allowed f settings = false ->
  flag f (loadUserSettings initialModel saved st) = flag f st.
Proof.
  intros Hs Hov. unfold loadUserSettings.
  destruct (isLoadingSettings st); [reflexivity|].
  destruct saved as [| |stored]; try reflexivity.
  unfold user_may_set.
  destruct settings as [b ob r or p op].
  destruct f; simpl in Hov; subst; destruct_all bool;
    repeat (simpl; rewrite Hs); reflexivity.
Qed.

(** Where the user may set a flag, the load effect sets it to the stored
    value, and to [false] when the stored object has none. *)
Lemma load_free_flag f initialModel stored (st : State) :
  isLoadingSettings st = false ->
  user_may_set f st = true ->
  flag f (loadUserSettings initialModel (ItemObject stored) st)
  = stored_flag f stored ?? false.
Proof.
  intros Hl Hu. unfold loadUserSettings. rewrite Hl.
  unfold user_may_set in *.
  destruct (tenantSearchSettings st) as [[b ob r or p op]|] eqn:Hs;
    destruct f; simpl in Hu; subst; destruct_all bool;
    repeat (simpl; rewrite Hs); reflexivity.
Qed.

(** C1.  For each of the three flags: when the tenant has a settings
    reference, the fetch delivers the tenant's search settings and these
    disable override for the flag, the value of the flag after settings
    resolution is the tenant's value, whatever the browser has stored
    and whatever the state held before. *)
Theorem C1_fixed_flag_is_tenant_value
    (f : Flag) (tenant : Tenant) (initialModel : LLMModel)
    (settings : SearchSettings) (saved : ChatSettingsItem) (st : State) :
  truthy (tenant_searchSettingsId tenant) = true ->
  override_allowed f settings = false ->
  flag f (resolveSettings tenant initialModel (ResOk (Some settings)) saved st)
  = tenant_value f settings.
Proof.
  intros Hid Hov. unfold resolveSettings.
  rewrite (load_keeps_fixed_flag f initialModel saved settings).
  - now apply fetch_ok_fixed_flag.
  - now apply fetch_ok_settings.
  - exact Hov.
Qed.

(** C2, as the code has it.  For each flag the tenant lets the user
    override: when the browser holds no stored value for the flag, the
    value after settings resolution of a fresh component is [false], the
    initial value of the state cell, whatever the tenant's own value. *)
Theorem C2_free_flag_without_stored_value_is_false
    (f : Flag) (tenant : Tenant) (initialModel : LLMModel)
    (settings : SearchSettings) (saved : ChatSettingsItem) :
  truthy (tenant_searchSettingsId tenant) = true ->
  override_allowed f settings = true ->
  stored_value f saved = None ->
  flag f (resolveSettings tenant initialModel (ResOk (Some settings)) saved
            (initialState modelSchema_safeParse tenant initialModel
               : State))
  = false.
Proof.
  intros Hid Hov Hnone. unfold resolveSettings.
  set (st := fetchTenantSearchSettings tenant (ResOk (Some settings)) _).
  assert (Hflag : flag f st = false).
  { unfold st. rewrite fetch_ok_free_flag by assumption. now destruct f. }
  assert (Hload : isLoadingSettings st = false) by apply fetch_clears_loading.
  destruct saved as [| |stored].
  - unfold loadUserSettings. rewrite Hload. exact Hflag.
  - unfold loadUserSettings. rewrite Hload. exact Hflag.
  - rewrite load_free_flag.
    + simpl in Hnone. now rewrite Hnone.
    + exact Hload.
    + unfold user_may_set, st. now rewrite fetch_ok_settings.
Qed.

(** ** Submission and completion *)

Lemma count_role_snoc (p : Message -> bool) (l : list Message) (m : Message)
    (st : State) :
  count_role p (setMessages (l ++ [m]) st)
  = (length (List.filter p l) + (if p m then 1 else 0))%nat.
Proof.
  unfold count_role. simpl. rewrite List.filter_app, length_app. simpl.
  destruct (p m); reflexivity.
Qed.

(** C3, as the code has it.  [handleSubmit] appends exactly one user
    entry and submits the payload when the model has a provider, and
    appends and submits nothing when it has none; [onFinish] appends
    exactly one assistant entry (content of the object, no id, no sources,
    the pending model) when the finished stream carries an object, and none
    when it does not.  Neither step ever appends more than one entry. *)
Theorem C3_entries_appended_per_submission
    (conversationId content : string) (model : LLMModel)
    (object : option ResponseObject) (st : State) :
  (let st1 := fst (handleSubmit getProviderForModel conversationId content
                     model st) in
   let sent := snd (handleSubmit getProviderForModel conversationId content
                      model st) in
   match getProviderForModel model with
   | Some _ =>
       messages st1 = messages st ++ [User content]
       /\ count_role is_user st1 = S (count_role is_user st)
       /\ count_role is_assistant st1 = count_role is_assistant st
       /\ sent = Some (mkPayload
                         conversationId content model
                         (isBreadth st) (rerankEnabled st) (prioritizeRecent st))
   | None => st1 = st /\ sent = None
   end)
  /\
  (let st2 := onFinish object st in
   match object with
   | Some o =>
       messages st2
       = messages st
         ++ [Assistant (mkAi (object_message o) None []
                          (pendingRef_model st))]
       /\ count_role is_assistant st2 = S (count_role is_assistant st)
       /\ count_role is_user st2 = count_role is_user st
   | None => st2 = st
   end).
Proof.
  split.
  - unfold handleSubmit. destruct (getProviderForModel model) as [prov|].
    + cbn [fst snd submit]. repeat split.
      * unfold count_role. simpl. rewrite List.filter_app, length_app.
        simpl. lia.
      * unfold count_role. simpl. rewrite List.filter_app, length_app.
        simpl. lia.
    + split; reflexivity.
  - unfold onFinish. destruct object as [o|]; [|reflexivity].
    repeat split.
    + rewrite count_role_snoc. unfold count_role. simpl. lia.
    + rewrite count_role_snoc. unfold count_role. simpl. lia.
Qed.

(** ** The pending record *)

Lemma pop_snoc {A : Type} (l : list A) (x : A) : pop (l ++ [x]) = (l, Some x).
Proof.
  induction l as [|a l IH]; [reflexivity|].
  change ((a :: l) ++ [x]) with (a :: (l ++ [x])).
  destruct (l ++ [x]) as [|b t] eqn:E.
  - destruct l; discriminate.
  - cbn [pop]. cbn [pop] in IH. rewrite IH. reflexivity.
Qed.

Lemma pop_Some {A : Type} (l copy : list A) (x : A) :
  pop l = (copy, Some x) -> l = copy ++ [x].
Proof.
  revert copy. induction l as [|a l IH]; intros copy H; [discriminate|].
  destruct l as [|b t].
  - injection H as <- <-. reflexivity.
  - cbn [pop] in H. cbn [pop] in IH.
    destruct (match t with
              | [] => ([], Some b)
              | _ :: _ => let '(copy, last) := pop t in (b :: copy, last)
              end) as [c o] eqn:E.
    injection H as <- ->. rewrite (IH c eq_refl). reflexivity.
Qed.

Lemma fetch_keeps_pending tenant res (st : State) :
  pendingMessage (fetchTenantSearchSettings tenant res st) = pendingMessage st.
Proof.
  unfold fetchTenantSearchSettings.
  destruct res as [[[b ob r or p op]|]| | |]; by_cases.
Qed.

Lemma load_keeps_pending initialModel saved (st : State) :
  pendingMessage (loadUserSettings initialModel saved st) = pendingMessage st.
Proof.
  unfold loadUserSettings. destruct saved; by_cases.
Qed.





(** ** Model selection *)

Lemma enforce_keeps_enabled_model tenant (st : State) :
  includes (tenant_enabledModels tenant) (selectedModel st) = true ->
  enforceEnabledModel tenant st = st.
Proof. intros H. unfold enforceEnabledModel. rewrite H. reflexivity. Qed.

Lemma includes_head (m : LLMModel) (rest : list LLMModel) :
  includes (m :: rest) (Some m) = true.
Proof. simpl. rewrite String.eqb_refl. reflexivity. Qed.

(** C6.  When the selected model is not contained in the tenant's
    enabled models, the enforcement effect replaces it by
    [enabledModels[0]]; on a non-empty list that is the list's first
    entry, which is enabled, so that running the effect again changes
    nothing.  The initializer of the cell makes the same choice for an
    initial model that is not enabled. *)
Theorem C6_excluded_model_replaced_by_first (tenant : Tenant) (st : State) :
  includes (tenant_enabledModels tenant) (selectedModel st) = false ->
  selectedModel (enforceEnabledModel tenant st)
  = tenant_enabledModels tenant !! 0%nat
  /\
  (forall m rest,
      tenant_enabledModels tenant = m :: rest ->
      selectedModel (enforceEnabledModel tenant st) = Some m
      /\ enforceEnabledModel tenant (enforceEnabledModel tenant st)
         = enforceEnabledModel tenant st
      /\ forall initialModel,
           includes (tenant_enabledModels tenant) (Some initialModel) = false ->
           selectedModel_init modelSchema_safeParse tenant initialModel
           = Some m).
Proof.
  intros Hout.
  assert (Hsel : selectedModel (enforceEnabledModel tenant st)
                 = tenant_enabledModels tenant !! 0%nat).
  { unfold enforceEnabledModel. rewrite Hout. reflexivity. }
  split; [exact Hsel|].
  intros m rest Hlist. rewrite Hsel, Hlist. split; [reflexivity|]. split.
  - apply enforce_keeps_enabled_model.
    rewrite Hsel, Hlist. apply includes_head.
  - intros initialModel Hinit. unfold selectedModel_init, first_enabled.
    rewrite ?Hlist in *. rewrite Hinit, andb_false_r. reflexivity.
Qed.

(** C9.  With no enabled model at all, the initializer falls through to
    the global initial model, which the tenant has not enabled, and the
    enforcement effect then selects [enabledModels[0]] of the empty list,
    the undefined model; it does so from any selection. *)
Theorem C9_empty_enabled_list
    (tenant : Tenant) (initialModel : LLMModel) (st : State) :
  tenant_enabledModels tenant = [] ->
  selectedModel_init modelSchema_safeParse tenant initialModel
  = Some initialModel
  /\ includes (tenant_enabledModels tenant) (Some initialModel) = false
  /\ selectedModel (enforceEnabledModel tenant st) = None
  /\ selectedModel
       (enforceEnabledModel tenant
          (initialState modelSchema_safeParse tenant initialModel : State))
     = None.
Proof.
  intros Hempty.
  assert (Hany : forall s : State,
             selectedModel (enforceEnabledModel tenant s) = None).
  { intros s. unfold enforceEnabledModel, first_enabled. rewrite Hempty.
    destruct (selectedModel s); reflexivity. }
  unfold selectedModel_init. rewrite Hempty. simpl.
  repeat split; apply Hany.
Qed.

(** ** Rendering with sources *)

Lemma lookup_map_list {A B : Type} (g : A -> B) (l : list A) (i : nat) :
  map g l !! i = g <$> (l !! i).
Proof.
  revert i. induction l as [|a l IH]; intros [|i]; simpl; auto.
Qed.

(** An entry is rendered from the cache's value at its own id and from
    nothing else in the cache. *)
Lemma attachSources_frame (cache cache' : gmap string (list SourceMetadata))
    (M : string) (m : Message) :
  (forall k, k <> M -> cache !! k = cache' !! k) ->
  message_id m <> Some M ->
  attachSources cache m = attachSources cache' m.
Proof.
  intros Hagree Hid. destruct m as [a| |]; try reflexivity.
  simpl in *. destruct (ai_id a) as [k|]; [|reflexivity].
  destruct (String.eqb k ""); [reflexivity|].
  rewrite (Hagree k); [reflexivity|]. congruence.
Qed.

(** C7.  Let the cache hold citations for the message id [M].  A
    rendered entry whose id is not [M], or which has no id, is rendered
    exactly as if the cache held nothing for [M]; an entry whose id is [M]
    is an assistant entry and is rendered with the cached citations. *)
Theorem C7_sources_only_on_matching_id
    (st : State) (M : string) (cited : list SourceMetadata)
    (i : nat) (m : Message) :
  sourceCache st !! M = Some cited ->
  List.filter shown (messages st) !! i = Some m ->
  (message_id m <> Some M ->
   messagesWithSources st !! i
   = messagesWithSources (setSourceCache (delete M (sourceCache st)) st) !! i)
  /\
  (message_id m = Some M -> M <> "" ->
   exists a, m = Assistant a
             /\ messagesWithSources st !! i
                = Some (Assistant (with_sources cited a))).
Proof.
  intros Hc Hm. unfold messagesWithSources. simpl.
  rewrite !lookup_map_list, Hm. simpl. split.
  - intros Hid. f_equal. apply (attachSources_frame _ _ M); [|exact Hid].
    intros k Hk. rewrite lookup_delete_ne by congruence. reflexivity.
  - intros Hid HM. destruct m as [a| |]; try discriminate.
    exists a. split; [reflexivity|]. simpl in *. rewrite Hid.
    destruct (String.eqb_spec M ""); [contradiction|].
    rewrite Hc. reflexivity.
Qed.

(** ** Further properties of settings resolution *)

Lemma fetch_without_settings tenant res (st : State) :
  truthy (tenant_searchSettingsId tenant) = false
  \/ (forall s, res <> ResOk (Some s)) ->
  fetchTenantSearchSettings tenant res st = setIsLoadingSettings false st.
Proof.
  intros [Hid|Hres]; unfold fetchTenantSearchSettings.
  - rewrite Hid. reflexivity.
  - destruct (negb (truthy (tenant_searchSettingsId tenant))); [reflexivity|].
    destruct res as [[s|]| | |]; try reflexivity. now destruct (Hres s).
Qed.

(** X1.  When no tenant settings arrive (the tenant has no settings
    reference, or the fetch does not end in a parsed ok response) and none
    were held before, every flag is the user's: resolution yields the
    stored value, [false] for a key the stored object lacks, and leaves the
    flag alone when there is no usable stored item. *)
Theorem no_tenant_settings_flags_are_users
    (f : Flag) (tenant : Tenant) (initialModel : LLMModel)
    (res : TenantsCurrentResponse) (saved : ChatSettingsItem) (st : State) :
  truthy (tenant_searchSettingsId tenant) = false
  \/ (forall s, res <> ResOk (Some s)) ->
  tenantSearchSettings st = None ->
  flag f (resolveSettings tenant initialModel res saved st)
  = match saved with
    | ItemObject stored => stored_flag f stored ?? false
    | ItemAbsent | ItemUnusable => flag f st
    end.
Proof.
  intros Hno Hnone. unfold resolveSettings.
  rewrite (fetch_without_settings tenant res st Hno).
  destruct saved as [| |stored].
  - now destruct f.
  - now destruct f.
  - apply load_free_flag; [reflexivity|].
    unfold user_may_set. simpl. now rewrite Hnone.
Qed.

(** X2.  A flag the tenant lets the user override resolves to the
    stored value when there is one, whatever the tenant's own value and
    the state before. *)
Theorem overridable_flag_is_stored_value
    (f : Flag) (tenant : Tenant) (initialModel : LLMModel)
    (settings : SearchSettings) (saved : ChatSettingsItem) (v : bool)
    (st : State) :
  truthy (tenant_searchSettingsId tenant) = true ->
  override_allowed f settings = true ->
  stored_value f saved = Some v ->
  flag f (resolveSettings tenant initialModel (ResOk (Some settings)) saved st)
  = v.
Proof.
  intros Hid Hov Hv. unfold resolveSettings.
  destruct saved as [| |stored]; try discriminate.
  rewrite load_free_flag.
  - simpl in Hv. now rewrite Hv.
  - apply fetch_clears_loading.
  - unfold user_may_set. now rewrite fetch_ok_settings.
Qed.

Lemma load_selectedModel initialModel stored (st : State) :
  isLoadingSettings st = false ->
  selectedModel (loadUserSettings initialModel (ItemObject stored) st)
  = Some (saved_selectedModel stored ?? initialModel).
Proof.
  intros Hl. unfold loadUserSettings. rewrite Hl. reflexivity.
Qed.

(** X3.  What the save effect writes, the load effect of a later
    session reads back: each flag the user may set there gets the value it
    had when saved, and the selected model is the saved one, or the global
    initial model when the saved selection was undefined. *)
Theorem saved_settings_load_back
    (f : Flag) (initialModel : LLMModel) (stored : StoredSettings)
    (st later : State) :
  saveUserSettings st = Some stored ->
  isLoadingSettings later = false ->
  user_may_set f later = true ->
  flag f (loadUserSettings initialModel (ItemObject stored) later) = flag f st
  /\ selectedModel (loadUserSettings initialModel (ItemObject stored) later)
     = Some (selectedModel st ?? initialModel).
Proof.
  intros Hsave Hl Hmay. unfold saveUserSettings in Hsave.
  destruct (isLoadingSettings st); [discriminate|].
  injection Hsave as <-. split.
  - rewrite load_free_flag by assumption. now destruct f.
  - now rewrite load_selectedModel.
Qed.

(** X4.  Saving and loading reach a fixed point: once the settings
    are loaded and a model is selected, loading the item the save effect
    has just written changes nothing, also for flags the tenant has
    fixed. *)
Theorem load_of_own_save_is_identity
    (initialModel : LLMModel) (stored : StoredSettings) (st : State) :
  saveUserSettings st = Some stored ->
  selectedModel st <> None ->
  loadUserSettings initialModel (ItemObject stored) st = st.
Proof.
  intros Hsave Hsel. unfold saveUserSettings in Hsave.
  destruct st as [ms sc pm sel b r p ts ls l]. simpl in *.
  destruct ls; [discriminate|]. injection Hsave as <-.
  destruct sel as [m|]; [|contradiction].
  unfold loadUserSettings, user_may_set. simpl.
  destruct ts as [[tb ob tr or tp op]|]; simpl;
    [destruct ob, or, op|]; reflexivity.
Qed.

(** While the settings are still loading, the save effect writes nothing
    and the load effect reads nothing. *)
Lemma loading_phase_is_inert
    (initialModel : LLMModel) (saved : ChatSettingsItem) (st : State) :
  isLoadingSettings st = true ->
  saveUserSettings st = None
  /\ loadUserSettings initialModel saved st = st.
Proof.
  intros Hl. unfold saveUserSettings, loadUserSettings. rewrite Hl.
  split; reflexivity.
Qed.

(** X5.  The payload of a submission carries the flags as resolved:
    for a flag the tenant has fixed, a message submitted after settings
    resolution is sent with the tenant's value, whatever is stored in the
    browser. *)
Theorem submitted_payload_has_tenant_value
    (f : Flag) (tenant : Tenant) (initialModel : LLMModel)
    (settings : SearchSettings) (saved : ChatSettingsItem) (st : State)
    (conversationId content : string) (model : LLMModel) (provider : Provider) :
  truthy (tenant_searchSettingsId tenant) = true ->
  override_allowed f settings = false ->
  getProviderForModel model = Some provider ->
  exists payload,
    snd (handleSubmit getProviderForModel conversationId content model
           (resolveSettings tenant initialModel (ResOk (Some settings)) saved
              st))
    = Some payload
    /\ payload_flag f payload = tenant_value f settings
    /\ payload_content payload = content
    /\ payload_model payload = model
    /\ payload_conversationId payload = conversationId.
Proof.
  intros Hid Hov Hprov.
  assert (Hflag :
            flag f (resolveSettings tenant initialModel (ResOk (Some settings))
                      saved st)
            = tenant_value f settings).
  { unfold resolveSettings.
    rewrite (load_keeps_fixed_flag f initialModel saved settings).
    - now apply fetch_ok_fixed_flag.
    - now apply fetch_ok_settings.
    - exact Hov. }
  unfold handleSubmit. rewrite Hprov. eexists. split; [reflexivity|].
  repeat split. rewrite <- Hflag. now destruct f.
Qed.

(** X6.  After resolution the save effect persists the effective values: for a
    flag the tenant has fixed, the stored item then holds the tenant's
    value, whatever the user had stored before. *)
Theorem save_after_resolution_stores_tenant_value
    (f : Flag) (tenant : Tenant) (initialModel : LLMModel)
    (settings : SearchSettings) (saved : ChatSettingsItem) (st : State) :
  truthy (tenant_searchSettingsId tenant) = true ->
  override_allowed f settings = false ->
  exists stored,
    saveUserSettings
      (resolveSettings tenant initialModel (ResOk (Some settings)) saved st)
    = Some stored
    /\ stored_flag f stored = Some (tenant_value f settings).
Proof.
  intros Hid Hov.
  set (st' := resolveSettings tenant initialModel (ResOk (Some settings))
                saved st).
  assert (Hflag : flag f st' = tenant_value f settings).
  { unfold st', resolveSettings.
    rewrite (load_keeps_fixed_flag f initialModel saved settings).
    - now apply fetch_ok_fixed_flag.
    - now apply fetch_ok_settings.
    - exact Hov. }
  assert (Hl : isLoadingSettings st' = false).
  { unfold st', resolveSettings, loadUserSettings.
    rewrite fetch_clears_loading.
    destruct saved; try apply fetch_clears_loading.
    by_cases; apply fetch_clears_loading. }
  unfold saveUserSettings. rewrite Hl. eexists. split; [reflexivity|].
  rewrite <- Hflag. now destruct f.
Qed.

(** ** Further properties of model selection *)

Lemma includes_In (models : list LLMModel) (m : LLMModel) :
  includes models (Some m) = true <-> In m models.
Proof.
  simpl. rewrite existsb_exists. split.
  - intros [x [Hx Heq]]. apply String.eqb_eq in Heq. now subst.
  - intros H. exists m. split; [exact H|apply String.eqb_refl].
Qed.

(** X7.  Over a non-empty list of enabled models, the enforcement effect leaves
    an enabled model selected, from any selection, also an undefined
    one. *)
Theorem enforce_selects_enabled (tenant : Tenant) (st : State) :
  tenant_enabledModels tenant <> [] ->
  exists m,
    selectedModel (enforceEnabledModel tenant st) = Some m
    /\ In m (tenant_enabledModels tenant).
Proof.
  intros Hne. unfold enforceEnabledModel.
  destruct (includes (tenant_enabledModels tenant) (selectedModel st)) eqn:E;
    simpl.
  - destruct (selectedModel st) as [m|]; [|discriminate].
    exists m. split; [reflexivity|]. now apply includes_In.
  - unfold first_enabled.
    destruct (tenant_enabledModels tenant) as [|m rest]; [contradiction|].
    exists m. split; [reflexivity|]. now left.
Qed.

(** X8.  Over a non-empty list of enabled models, the initializer selects an
    enabled model: the global initial model when the schema accepts it and
    the tenant enables it, the first enabled model otherwise; the
    enforcement effect then finds nothing to change on the first render. *)
Theorem init_selects_enabled (tenant : Tenant) (initialModel : LLMModel) :
  tenant_enabledModels tenant <> [] ->
  exists m,
    selectedModel_init modelSchema_safeParse tenant initialModel = Some m
    /\ In m (tenant_enabledModels tenant)
    /\ (m = if modelSchema_safeParse initialModel
                && includes (tenant_enabledModels tenant) (Some initialModel)
             then initialModel
             else hd m (tenant_enabledModels tenant))
    /\ enforceEnabledModel tenant
         (initialState modelSchema_safeParse tenant initialModel : State)
       = initialState modelSchema_safeParse tenant initialModel.
Proof.
  intros Hne.
  assert (Hinit : exists m,
             selectedModel_init modelSchema_safeParse tenant initialModel
             = Some m
             /\ In m (tenant_enabledModels tenant)
             /\ m = if modelSchema_safeParse initialModel
                       && includes (tenant_enabledModels tenant)
                            (Some initialModel)
                    then initialModel
                    else hd m (tenant_enabledModels tenant)).
  { unfold selectedModel_init, first_enabled.
    destruct (tenant_enabledModels tenant) as [|m0 rest] eqn:El;
      [contradiction|].
    cbn [length Nat.ltb Nat.leb].
    destruct (modelSchema_safeParse initialModel); cbn [andb].
    - destruct (includes (m0 :: rest) (Some initialModel)) eqn:E.
      + exists initialModel. repeat split. now apply includes_In.
      + exists m0. repeat split. now left.
    - exists m0. repeat split. now left. }
  destruct Hinit as [m [Hm [Hin Hval]]].
  exists m. repeat split; try assumption.
  apply enforce_keeps_enabled_model. simpl. rewrite Hm.
  now apply includes_In.
Qed.

(** ** The transcript along the events *)

Lemma fetch_keeps_messages tenant res (st : State) :
  messages (fetchTenantSearchSettings tenant res st) = messages st.
Proof.
  unfold fetchTenantSearchSettings.
  destruct res as [[[b ob r or p op]|]| | |]; by_cases.
Qed.

Lemma load_keeps_messages initialModel saved (st : State) :
  messages (loadUserSettings initialModel saved st) = messages st.
Proof.
  unfold loadUserSettings. destruct saved; by_cases.
Qed.

Lemma run_cons tenant conversationId initialModel e es (st : State) :
  run getProviderForModel tenant conversationId initialModel (e :: es) st
  = run getProviderForModel tenant conversationId initialModel es
      (step getProviderForModel tenant conversationId initialModel e st).
Proof. reflexivity. Qed.

Lemma run_snoc tenant conversationId initialModel es e (st : State) :
  run getProviderForModel tenant conversationId initialModel (es ++ [e]) st
  = step getProviderForModel tenant conversationId initialModel e
      (run getProviderForModel tenant conversationId initialModel es st).
Proof. unfold run. rewrite fold_left_app. reflexivity. Qed.

(** Every event but the arrival of the stored transcript leaves who said
    what as it was, or adds one entry at the end. *)
Lemma step_extends_transcript tenant conversationId initialModel
    (e : Event) (st : State) :
  is_transcript_load e = false ->
  exists added,
    transcript_text
      (step getProviderForModel tenant conversationId initialModel e st)
    = transcript_text st ++ added
    /\ (length added <= 1)%nat.
Proof.
  intros Hnot. unfold transcript_text.
  destruct e; try discriminate; cbn [step].
  - exists []. rewrite fetch_keeps_messages, app_nil_r. split; [easy|simpl; lia].
  - exists []. rewrite load_keeps_messages, app_nil_r. split; [easy|simpl; lia].
  - unfold handleSubmit. destruct (getProviderForModel model).
    + exists [(RoleUser, content)]. simpl. rewrite map_app. split; [easy|lia].
    + exists []. simpl. rewrite app_nil_r. split; [easy|lia].
  - exists []. rewrite app_nil_r. split; [|simpl; lia].
    unfold middleware.
    destruct x_message_id as [i|]; [destruct (String.eqb i "")|]; reflexivity.
  - unfold onFinish. destruct object as [o|].
    + exists [(RoleAssistant, object_message o)]. simpl. rewrite map_app.
      split; [easy|lia].
    + exists []. simpl. rewrite app_nil_r. split; [easy|lia].
  - exists []. simpl. rewrite app_nil_r. split; [easy|lia].
  - exists []. rewrite app_nil_r. split; [|simpl; lia].
    unfold stampPending. destruct (pendingMessage st) as [p|]; [|reflexivity].
    destruct (isLoading st); [reflexivity|].
    destruct (pop (messages st)) as [copy [[last| |]|]] eqn:E;
      try reflexivity.
    apply pop_Some in E. rewrite E. simpl. rewrite !map_app. reflexivity.
  - exists []. simpl. rewrite app_nil_r. split; [easy|lia].
  - exists []. simpl. rewrite app_nil_r. split; [easy|lia].
  - exists []. rewrite app_nil_r. split; [|simpl; lia]. now destruct f.
  - exists []. rewrite app_nil_r. split; [|simpl; lia].
    unfold enforceEnabledModel. now destruct (negb _).
Qed.

(** X9.  The transcript is append-only.  Along any sequence of events without a
    transcript load, who said what at the start is a prefix of who said
    what at the end, and at most one entry is added per event: no entry is
    removed, reordered, or has its role or content rewritten. *)
Theorem transcript_append_only tenant conversationId initialModel
    (es : list Event) (st : State) :
  forallb (fun e => negb (is_transcript_load e)) es = true ->
  exists added,
    transcript_text
      (run getProviderForModel tenant conversationId initialModel es st)
    = transcript_text st ++ added
    /\ (length added <= length es)%nat.
Proof.
  revert st. induction es as [|e es IH]; intros st Hes.
  - exists []. simpl. rewrite app_nil_r. split; [reflexivity|lia].
  - simpl in Hes. apply andb_prop in Hes as [He Hes].
    apply negb_true_iff in He.
    destruct (step_extends_transcript tenant conversationId initialModel e st
                He) as [a1 [H1 L1]].
    destruct (IH (step getProviderForModel tenant conversationId initialModel
                    e st) Hes) as [a2 [H2 L2]].
    exists (a1 ++ a2). rewrite run_cons, H2, H1, <- app_assoc.
    split; [reflexivity|]. rewrite length_app. simpl. lia.
Qed.

(** ** The pending record along the events *)

Lemma step_pending_origin tenant conversationId initialModel
    (e : Event) (st : State) (p : Pending) :
  pendingMessage
    (step getProviderForModel tenant conversationId initialModel e st)
  = Some p ->
  pendingMessage st = Some p
  \/ (e = HeadersReceived (Some (pending_id p)) (pending_model p)
      /\ pending_id p <> "").
Proof.
  intros H. destruct e; cbn [step] in H.
  - rewrite fetch_keeps_pending in H. now left.
  - rewrite load_keeps_pending in H. now left.
  - now left.
  - unfold handleSubmit in H.
    destruct (getProviderForModel model); now left.
  - unfold middleware in H. destruct x_message_id as [i|]; [|now left].
    destruct (String.eqb_spec i ""); [now left|].
    injection H as <-. right. split; [reflexivity|exact n].
  - unfold onFinish in H. destruct object; now left.
  - now left.
  - unfold stampPending in H.
    destruct (pendingMessage st) as [q|] eqn:Hq; [|simpl in H; congruence].
    destruct (isLoading st); [left; simpl in H; congruence|].
    destruct (pop (messages st)) as [copy [[last| |]|]];
      try discriminate; left; congruence.
  - now left.
  - now left.
  - destruct f; now left.
  - unfold enforceEnabledModel in H. destruct (negb _); now left.
Qed.

(** X10.  A pending record is never made up.  Along any sequence of events from
    a state without one, the record held at the end is the pair of headers
    of a response that was received, and its id is not empty. *)
Theorem pending_record_comes_from_headers tenant conversationId initialModel
    (es : list Event) (st : State) (p : Pending) :
  pendingMessage st = None ->
  pendingMessage
    (run getProviderForModel tenant conversationId initialModel es st)
  = Some p ->
  In (HeadersReceived (Some (pending_id p)) (pending_model p)) es
  /\ pending_id p <> "".
Proof.
  intros Hnone. induction es as [|e es IH] using rev_ind; intros H.
  - simpl in H. congruence.
  - rewrite run_snoc in H.
    apply step_pending_origin in H as [H|[-> Hid]].
    + destruct (IH H) as [Hin Hid]. split; [|exact Hid].
      apply in_or_app. now left.
    + split; [|exact Hid]. apply in_or_app. right. now left.
Qed.

(** ** One submission from end to end *)

Lemma onFinish_rendered (object : option ResponseObject) (st : State) :
  onFinish object st = onFinish_at (pendingMessage st) object st.
Proof. destruct object; reflexivity. Qed.

(** X11.  A submission that is answered.  From any state, for a model
    with a provider and a response with a non-empty message id: after
    [handleSubmit], the middleware, the end of the stream with an object
    and the stamp effect, the transcript has grown by the user's entry and
    one assistant entry that carries the streamed message, the id of the
    [x-message-id] header and no sources; no record is pending and the
    hook is idle.  The model of the entry is the one of the record that
    [pendingMessageRef.current] holds when the stream ends, whatever that
    is: the [x-model] header's when a render has assigned the ref since the
    headers arrived, which is the run of the transition system. *)
Theorem answered_submission tenant conversationId initialModel
    (st : State) (current : option Pending) (content : string)
    (model : LLMModel) (provider : Provider)
    (id : string) (x_model : option string) (o : ResponseObject) :
  getProviderForModel model = Some provider ->
  id <> "" ->
  messages
    (answered_at getProviderForModel conversationId current content model id
       x_model o st)
  = messages st
    ++ [User content;
        Assistant (mkAi (object_message o) (Some id) [] (ref_model current))]
  /\ pendingMessage
       (answered_at getProviderForModel conversationId current content model
          id x_model o st)
     = None
  /\ isLoading
       (answered_at getProviderForModel conversationId current content model
          id x_model o st)
     = false
  /\ answered_at getProviderForModel conversationId
       (Some (mkPending id x_model)) content model id x_model o st
     = run getProviderForModel tenant conversationId initialModel
         (answered_cycle content model (Some id) x_model (Some o)) st.
Proof.
  intros Hprov Hid. unfold answered_at, run, answered_cycle.
  cbn [fold_left step]. rewrite onFinish_rendered.
  unfold handleSubmit. rewrite Hprov. cbn [fst submit].
  unfold middleware. destruct (String.eqb_spec id ""); [contradiction|].
  unfold onFinish_at, stampPending. simpl.
  rewrite !pop_snoc. simpl. rewrite <- app_assoc. repeat split.
Qed.

(** X12.  A submission whose stream ends without an object.  The transcript
    keeps the user's entry and gets no assistant entry; the stamp effect
    finds a user entry last and does nothing, so the record of the failed
    response stays pending while the hook is idle again. *)
Theorem unanswered_submission tenant conversationId initialModel
    (st : State) (content : string) (model : LLMModel) (provider : Provider)
    (id : string) (x_model : option string) :
  getProviderForModel model = Some provider ->
  id <> "" ->
  messages
    (run getProviderForModel tenant conversationId initialModel
       (answered_cycle content model (Some id) x_model None) st)
  = messages st ++ [User content]
  /\ pendingMessage
       (run getProviderForModel tenant conversationId initialModel
          (answered_cycle content model (Some id) x_model None) st)
     = Some (mkPending id x_model)
  /\ isLoading
       (run getProviderForModel tenant conversationId initialModel
          (answered_cycle content model (Some id) x_model None) st)
     = false.
Proof.
  intros Hprov Hid. unfold run, answered_cycle. cbn [fold_left step].
  unfold handleSubmit. rewrite Hprov. cbn [fst submit].
  unfold middleware. destruct (String.eqb_spec id ""); [contradiction|].
  unfold onFinish, stampPending. simpl.
  rewrite pop_snoc. repeat split.
Qed.

(** ** Citations *)

(** X13.  Citations may arrive at any time: caching the citations of one
    message commutes with every other event of the component, among them
    the stamp effect and the caching of another message's citations. *)
Theorem sources_arrival_commutes tenant conversationId initialModel
    (e : Event) (id : string) (cited : list SourceMetadata) (st : State) :
  fetches_sources_for id e = false ->
  step getProviderForModel tenant conversationId initialModel e
    (cacheSources id cited st)
  = cacheSources id cited
      (step getProviderForModel tenant conversationId initialModel e st).
Proof.
  intros He. destruct e; cbn [step].
  - unfold fetchTenantSearchSettings.
    destruct res as [[[b ob r or p op]|]| | |]; by_cases.
  - destruct st as [ms sc pm sel b0 r0 p0 ts ls l].
    unfold loadUserSettings, user_may_set, cacheSources. simpl.
    destruct ls; [reflexivity|].
    destruct saved as [| |stored]; try reflexivity.
    destruct ts as [[b ob r or p op]|]; simpl;
      [destruct ob, or, op|]; reflexivity.
  - reflexivity.
  - unfold handleSubmit. destruct (getProviderForModel model); reflexivity.
  - unfold middleware.
    destruct x_message_id as [i|]; [destruct (String.eqb i "")|]; reflexivity.
  - unfold onFinish. destruct object; reflexivity.
  - reflexivity.
  - unfold stampPending. simpl.
    destruct (pendingMessage st); [|reflexivity].
    destruct (isLoading st); [reflexivity|].
    destruct (pop (messages st)) as [copy [[last| |]|]]; reflexivity.
  - simpl in He. apply String.eqb_neq in He.
    destruct st as [ms sc pm sel b0 r0 p0 ts ls l].
    unfold cacheSources, setSourceCache. simpl. f_equal.
    apply insert_insert_ne. congruence.
  - reflexivity.
  - destruct f; reflexivity.
  - unfold enforceEnabledModel. simpl. destruct (negb _); reflexivity.
Qed.

Lemma strip_attachSources (cache : gmap string (list SourceMetadata))
    (m : Message) :
  strip_sources (attachSources cache m) = strip_sources m.
Proof.
  destruct m as [a| |]; try reflexivity. simpl.
  destruct (ai_id a) as [k|]; [|reflexivity].
  destruct (String.eqb k ""); [reflexivity|].
  destruct (cache !! k); reflexivity.
Qed.

Lemma shown_attachSources (cache : gmap string (list SourceMetadata))
    (m : Message) :
  shown (attachSources cache m) = shown m.
Proof.
  destruct m as [a| |]; try reflexivity. simpl.
  destruct (ai_id a) as [k|]; [|reflexivity].
  destruct (String.eqb k ""); [reflexivity|].
  destruct (cache !! k); reflexivity.
Qed.

(** X14.  Rendering changes citations and nothing else.  The rendered
    list is the transcript without its system entries, in order, each entry
    with its role, content, id and model as in the transcript; it has one
    entry per user and assistant entry, and an entry without an id or with
    an empty id is rendered as it is. *)
Theorem rendering_changes_sources_only (st : State) :
  map strip_sources (messagesWithSources st)
  = map strip_sources (List.filter shown (messages st))
  /\ forallb shown (messagesWithSources st) = true
  /\ length (messagesWithSources st)
     = (count_role is_user st + count_role is_assistant st)%nat
  /\ (forall i m,
        List.filter shown (messages st) !! i = Some m ->
        message_id m = None \/ message_id m = Some "" ->
        messagesWithSources st !! i = Some m).
Proof.
  unfold messagesWithSources, count_role. repeat split.
  - rewrite map_map. apply map_ext. intros m. apply strip_attachSources.
  - apply forallb_forall. intros m Hm. apply in_map_iff in Hm as [x [<- Hx]].
    rewrite shown_attachSources. now apply List.filter_In in Hx.
  - rewrite length_map.
    induction (messages st) as [|[a| |] l IH]; simpl; lia.
  - intros i m Hm Hid. rewrite lookup_map_list, Hm. simpl. f_equal.
    destruct m as [a| |]; try reflexivity. simpl in *.
    destruct Hid as [->| ->]; reflexivity.
Qed.


(** ** The rendered column *)

(** X16.  One element per user and assistant entry, in order, and after them the
    provisional answer exactly while the hook is loading; it is the only
    element that is marked as generating. *)
Theorem render_shape (streamed : option string) (st : State) :
  length (render streamed st)
  = (count_role is_user st + count_role is_assistant st
     + if isLoading st then 1 else 0)%nat
  /\ List.filter is_generating (render streamed st)
     = if isLoading st then [provisional streamed st] else [].
Proof.
  unfold render. split.
  - rewrite length_app, length_map.
    unfold messagesWithSources, count_role. rewrite length_map.
    assert (Hlen : length (List.filter shown (messages st))
                   = (length (List.filter is_user (messages st))
                      + length (List.filter is_assistant (messages st)))%nat).
    { induction (messages st) as [|[a| |] l IH]; simpl; lia. }
    rewrite Hlen. now destruct (isLoading st).
  - rewrite List.filter_app.
    assert (Hnone : List.filter is_generating
                      (map (render_message st) (messagesWithSources st)) = []).
    { induction (messagesWithSources st) as [|[a| |] l IH]; simpl; auto. }
    rewrite Hnone. now destruct (isLoading st).
Qed.

(** X17.  The final answer takes the place of the provisional one.  While a
    response with a pending record streams, the column ends in the
    provisional answer; once the stream has ended with an object and the
    stamp effect has run, the earlier elements are as they were and the
    column ends in the answer with the final content, the same id and the
    same model, no longer generating.  (No citations are cached for the id
    yet.) *)
Theorem final_answer_replaces_provisional tenant conversationId initialModel
    (streamed later : option string) (st : State) (p : Pending)
    (o : ResponseObject) :
  pendingMessage st = Some p ->
  isLoading st = true ->
  sourceCache st !! pending_id p = None ->
  render streamed st
  = map (render_message st) (messagesWithSources st)
    ++ [AssistantElement
          (mkProps streamed (Some (pending_id p)) []
                   (or_else (pending_model p) (selectedModel st)) true)]
  /\ render later
       (run getProviderForModel tenant conversationId initialModel
          [StreamFinished (Some o); StampEffect] st)
     = map (render_message st) (messagesWithSources st)
       ++ [AssistantElement
             (mkProps (Some (object_message o)) (Some (pending_id p)) []
                      (or_else (pending_model p) (selectedModel st)) false)].
Proof.
  intros Hp Hl Hc. split.
  - unfold render, provisional, pendingRef_model. now rewrite Hl, Hp.
  - unfold run. cbn [fold_left step].
    unfold onFinish, stampPending, pendingRef_model. simpl. rewrite Hp. simpl.
    rewrite pop_snoc. unfold render, messagesWithSources. simpl.
    rewrite List.filter_app, map_app, map_app. simpl.
    rewrite Hc. rewrite app_nil_r.
    destruct (String.eqb (pending_id p) ""); reflexivity.
Qed.

End Facts.

(** The example of the specification: the user submits "Hello" with
    "gpt-4", the response headers arrive, the stream finishes, the stamp
    effect runs. *)
Example hello_transcript :
  messages
    (run demo_provider demo_tenant "c-1" "gpt-4"
       [Submitted "Hello" "gpt-4";
        HeadersReceived (Some "m-1") (Some "gpt-4");
        StreamFinished (Some (mkResponseObject "Hi"));
        StampEffect]
       demo_state)
  = [User "Hello"; Assistant (mkAi "Hi" (Some "m-1") [] (Some "gpt-4"))]
  /\ pendingMessage
       (run demo_provider demo_tenant "c-1" "gpt-4"
          [Submitted "Hello" "gpt-4";
           HeadersReceived (Some "m-1") (Some "gpt-4");
           StreamFinished (Some (mkResponseObject "Hi"));
           StampEffect]
          demo_state)
     = None.
Proof. split; reflexivity. Qed.

Lemma C1_witness :
  flag Breadth
    (resolveSettings demo_tenant "gpt-4"
       (ResOk (Some (mkSearchSettings true false false true false true)))
       (ItemObject (mkStoredSettings (Some false) (Some true) None None))
       demo_state)
  = true.
Proof.
  apply (C1_fixed_flag_is_tenant_value Breadth demo_tenant "gpt-4"
           (mkSearchSettings true false false true false true)
           (ItemObject (mkStoredSettings (Some false) (Some true) None None))
           demo_state);
    reflexivity.
Defined.

(** C2 as the specification words it fails: the tenant's value of an
    overridable flag is [true], nothing is stored, and the resolved value
    is [false]. *)
Lemma C2_counterexample :
  truthy (tenant_searchSettingsId demo_tenant) = true /\
  override_allowed Breadth demo_settings_overridable = true /\
  stored_value Breadth ItemAbsent = None /\
  flag Breadth
    (resolveSettings demo_tenant "gpt-4"
       (ResOk (Some demo_settings_overridable)) ItemAbsent demo_state)
  <> tenant_value Breadth demo_settings_overridable.
Proof. repeat split; discriminate. Qed.

Lemma C2_witness :
  flag Breadth
    (resolveSettings demo_tenant "gpt-4"
       (ResOk (Some (mkSearchSettings true true false true false true)))
       ItemAbsent demo_state)
  = false.
Proof.
  apply (C2_free_flag_without_stored_value_is_false (SourceMetadata := string)
           demo_safeParse Breadth demo_tenant "gpt-4"
           (mkSearchSettings true true false true false true) ItemAbsent);
    reflexivity.
Defined.

(** C3 as the specification words it fails twice: a stream that
    finishes without an object adds no assistant entry to the transcript of
    the submission, and a submission with a model that has no provider
    adds no user entry. *)
Lemma C3_counterexample :
  count_role is_user demo_submitted = S (count_role is_user demo_state)
  /\ count_role is_assistant
       (step demo_provider demo_tenant "c-1" "gpt-4" (StreamFinished None)
          demo_submitted)
     <> S (count_role is_assistant demo_submitted)
  /\ count_role is_user
       (fst (handleSubmit demo_provider "c-1" "Hello" "llama" demo_state))
     <> S (count_role is_user demo_state).
Proof. repeat split; discriminate. Qed.



Lemma C6_witness :
  selectedModel
    (enforceEnabledModel demo_tenant (setSelectedModel (Some "llama") demo_state))
  = Some "gpt-4"
  /\ selectedModel_init demo_safeParse demo_tenant "llama" = Some "gpt-4".
Proof.
  destruct (C6_excluded_model_replaced_by_first demo_safeParse demo_tenant
              (setSelectedModel (Some "llama") demo_state) eq_refl)
    as [_ Hfirst].
  destruct (Hfirst "gpt-4" ["claude"] eq_refl) as [Hsel [_ Hinit]].
  split; [exact Hsel|]. apply Hinit. reflexivity.
Defined.

Lemma C7_witness :
  messagesWithSources demo_cited !! 3%nat
  = messagesWithSources (setSourceCache ∅ demo_cited) !! 3%nat
  /\ messagesWithSources demo_cited !! 1%nat
     = Some (Assistant (mkAi "Hi" (Some "m-1") ["handbook.pdf"] (Some "gpt-4"))).
Proof.
  split.
  - apply (C7_sources_only_on_matching_id demo_cited "m-1" ["handbook.pdf"]
             3%nat (Assistant (mkAi "Sure" (Some "m-2") ["old.txt"]
                                    (Some "gpt-4")))
             eq_refl eq_refl).
    discriminate.
  - destruct (C7_sources_only_on_matching_id demo_cited "m-1" ["handbook.pdf"]
                1%nat (Assistant (mkAi "Hi" (Some "m-1") [] (Some "gpt-4")))
                eq_refl eq_refl) as [_ Hsame].
    destruct (Hsame eq_refl) as [a [Ha Hshown]]; [discriminate|].
    injection Ha as <-. exact Hshown.
Defined.

Lemma C9_witness :
  selectedModel_init demo_safeParse demo_tenant_without_models "gpt-4"
  = Some "gpt-4"
  /\ includes (tenant_enabledModels demo_tenant_without_models) (Some "gpt-4")
     = false
  /\ selectedModel (enforceEnabledModel demo_tenant_without_models demo_state)
     = None
  /\ selectedModel
       (enforceEnabledModel demo_tenant_without_models
          (initialState demo_safeParse demo_tenant_without_models "gpt-4"
             : State (SourceMetadata := string)))
     = None.
Proof.
  apply (C9_empty_enabled_list demo_safeParse demo_tenant_without_models
           "gpt-4" demo_state).
  reflexivity.
Defined.

Lemma no_tenant_settings_witness :
  flag Rerank
    (resolveSettings demo_tenant_without_models "gpt-4" ResNotFound
       (ItemObject (mkStoredSettings None (Some true) None None)) demo_state)
  = true.
Proof.
  apply (no_tenant_settings_flags_are_users Rerank demo_tenant_without_models
           "gpt-4" ResNotFound
           (ItemObject (mkStoredSettings None (Some true) None None))
           demo_state).
  - left. reflexivity.
  - reflexivity.
Defined.

Lemma overridable_flag_witness :
  flag Breadth
    (resolveSettings demo_tenant "gpt-4"
       (ResOk (Some demo_settings_overridable))
       (ItemObject (mkStoredSettings (Some false) None None None)) demo_state)
  = false.
Proof.
  apply (overridable_flag_is_stored_value Breadth demo_tenant "gpt-4"
           demo_settings_overridable
           (ItemObject (mkStoredSettings (Some false) None None None))
           false demo_state);
    reflexivity.
Defined.

Lemma saved_settings_witness :
  flag Breadth
    (loadUserSettings "claude"
       (ItemObject (mkStoredSettings (Some true) (Some false) (Some false)
                                     (Some "gpt-4")))
       (setIsLoadingSettings false demo_state))
  = flag Breadth demo_loaded
  /\ selectedModel
       (loadUserSettings "claude"
          (ItemObject (mkStoredSettings (Some true) (Some false) (Some false)
                                        (Some "gpt-4")))
          (setIsLoadingSettings false demo_state))
     = Some "gpt-4".
Proof.
  apply (saved_settings_load_back Breadth "claude"
           (mkStoredSettings (Some true) (Some false) (Some false)
                             (Some "gpt-4"))
           demo_loaded (setIsLoadingSettings false demo_state));
    reflexivity.
Defined.

Lemma load_of_own_save_witness :
  loadUserSettings "claude"
    (ItemObject (mkStoredSettings (Some true) (Some false) (Some false)
                                  (Some "gpt-4")))
    demo_loaded
  = demo_loaded.
Proof.
  apply (load_of_own_save_is_identity "claude"
           (mkStoredSettings (Some true) (Some false) (Some false)
                             (Some "gpt-4"))
           demo_loaded).
  - reflexivity.
  - discriminate.
Defined.

Lemma submitted_payload_witness :
  exists payload,
    snd (handleSubmit demo_provider "c-1" "Hello" "gpt-4"
           (resolveSettings demo_tenant "gpt-4"
              (ResOk (Some (mkSearchSettings true false false true false true)))
              (ItemObject (mkStoredSettings (Some false) None None None))
              demo_state))
    = Some payload
    /\ payload_flag Breadth payload = true
    /\ payload_content payload = "Hello"
    /\ payload_model payload = "gpt-4"
    /\ payload_conversationId payload = "c-1".
Proof.
  apply (submitted_payload_has_tenant_value demo_provider Breadth demo_tenant
           "gpt-4" (mkSearchSettings true false false true false true)
           (ItemObject (mkStoredSettings (Some false) None None None))
           demo_state "c-1" "Hello" "gpt-4" "openai");
    reflexivity.
Defined.

Lemma save_after_resolution_witness :
  exists stored,
    saveUserSettings
      (resolveSettings demo_tenant "gpt-4"
         (ResOk (Some (mkSearchSettings true false false true false true)))
         (ItemObject (mkStoredSettings (Some false) None None None))
         demo_state)
    = Some stored
    /\ stored_flag Breadth stored = Some true.
Proof.
  apply (save_after_resolution_stores_tenant_value Breadth demo_tenant "gpt-4"
           (mkSearchSettings true false false true false true)
           (ItemObject (mkStoredSettings (Some false) None None None))
           demo_state);
    reflexivity.
Defined.

Lemma enforce_selects_enabled_witness :
  exists m,
    selectedModel (enforceEnabledModel demo_tenant
                     (setSelectedModel None demo_state)) = Some m
    /\ In m (tenant_enabledModels demo_tenant).
Proof.
  apply (enforce_selects_enabled demo_tenant (setSelectedModel None demo_state)).
  discriminate.
Defined.

Lemma init_selects_enabled_witness :
  exists m,
    selectedModel_init demo_safeParse demo_tenant "llama" = Some m
    /\ In m (tenant_enabledModels demo_tenant)
    /\ (m = if demo_safeParse "llama"
                && includes (tenant_enabledModels demo_tenant) (Some "llama")
             then "llama"
             else hd m (tenant_enabledModels demo_tenant))
    /\ enforceEnabledModel demo_tenant
         (initialState demo_safeParse demo_tenant "llama"
            : State (SourceMetadata := string))
       = initialState demo_safeParse demo_tenant "llama".
Proof.
  apply (init_selects_enabled (SourceMetadata := string) demo_safeParse
           demo_tenant "llama").
  discriminate.
Defined.

Lemma transcript_append_only_witness :
  exists added,
    transcript_text
      (run demo_provider demo_tenant "c-1" "gpt-4"
         (answered_cycle "More" "claude" (Some "m-8") (Some "claude")
            (Some (mkResponseObject "Sure")))
         demo_answered)
    = transcript_text demo_answered ++ added
    /\ (length added <= 4)%nat.
Proof.
  apply (transcript_append_only demo_provider demo_tenant "c-1" "gpt-4"
           (answered_cycle "More" "claude" (Some "m-8") (Some "claude")
              (Some (mkResponseObject "Sure")))
           demo_answered).
  reflexivity.
Defined.

Lemma pending_record_witness :
  In (HeadersReceived (SourceMetadata := string) (Some "m-1") (Some "gpt-4"))
     [Submitted "Hello" "gpt-4"; HeadersReceived (Some "m-1") (Some "gpt-4");
      StreamFailed]
  /\ "m-1" <> "".
Proof.
  apply (pending_record_comes_from_headers demo_provider demo_tenant "c-1"
           "gpt-4"
           [Submitted "Hello" "gpt-4";
            HeadersReceived (Some "m-1") (Some "gpt-4"); StreamFailed]
           demo_state (mkPending "m-1" (Some "gpt-4")));
    reflexivity.
Defined.

Lemma answered_submission_witness :
  messages
    (answered_at demo_provider "c-1" None "Hello" "gpt-4" "m-1" (Some "claude")
       (mkResponseObject "Hi") demo_state)
  = [User "Hello"; Assistant (mkAi "Hi" (Some "m-1") [] None)]
  /\ pendingMessage
       (answered_at demo_provider "c-1" None "Hello" "gpt-4" "m-1"
          (Some "claude") (mkResponseObject "Hi") demo_state)
     = None
  /\ isLoading
       (answered_at demo_provider "c-1" None "Hello" "gpt-4" "m-1"
          (Some "claude") (mkResponseObject "Hi") demo_state)
     = false
  /\ answered_at demo_provider "c-1" (Some (mkPending "m-1" (Some "claude")))
       "Hello" "gpt-4" "m-1" (Some "claude") (mkResponseObject "Hi") demo_state
     = run demo_provider demo_tenant "c-1" "gpt-4"
         (answered_cycle "Hello" "gpt-4" (Some "m-1") (Some "claude")
            (Some (mkResponseObject "Hi")))
         demo_state.
Proof.
  apply (answered_submission demo_provider demo_tenant "c-1" "gpt-4"
           demo_state None "Hello" "gpt-4" "openai" "m-1" (Some "claude")
           (mkResponseObject "Hi")).
  - reflexivity.
  - discriminate.
Defined.

Lemma unanswered_submission_witness :
  messages
    (run demo_provider demo_tenant "c-1" "gpt-4"
       (answered_cycle "Hello" "gpt-4" (Some "m-1") (Some "claude") None)
       demo_state)
  = [User "Hello"]
  /\ pendingMessage
       (run demo_provider demo_tenant "c-1" "gpt-4"
          (answered_cycle "Hello" "gpt-4" (Some "m-1") (Some "claude") None)
          demo_state)
     = Some (mkPending "m-1" (Some "claude"))
  /\ isLoading
       (run demo_provider demo_tenant "c-1" "gpt-4"
          (answered_cycle "Hello" "gpt-4" (Some "m-1") (Some "claude") None)
          demo_state)
     = false.
Proof.
  apply (unanswered_submission demo_provider demo_tenant "c-1" "gpt-4"
           demo_state "Hello" "gpt-4" "openai" "m-1" (Some "claude")).
  - reflexivity.
  - discriminate.
Defined.

Lemma sources_arrival_witness :
  step demo_provider demo_tenant "c-1" "gpt-4" StampEffect
    (cacheSources "m-7" ["handbook.pdf"] demo_answered)
  = cacheSources "m-7" ["handbook.pdf"]
      (step demo_provider demo_tenant "c-1" "gpt-4" StampEffect demo_answered).
Proof.
  apply (sources_arrival_commutes demo_provider demo_tenant "c-1" "gpt-4"
           StampEffect "m-7" ["handbook.pdf"] demo_answered).
  reflexivity.
Defined.

Lemma rendering_witness :
  messagesWithSources demo_answered !! 1%nat
  = Some (Assistant (mkAi "Hi" None [] (Some "gpt-4"))).
Proof.
  destruct (rendering_changes_sources_only demo_answered) as [_ [_ [_ Hsame]]].
  apply (Hsame 1%nat (Assistant (mkAi "Hi" None [] (Some "gpt-4")))).
  - reflexivity.
  - left. reflexivity.
Defined.


Lemma final_answer_witness :
  render (Some "Su") (setIsLoading true demo_answered)
  = map (render_message (setIsLoading true demo_answered))
        (messagesWithSources (setIsLoading true demo_answered))
    ++ [AssistantElement
          (mkProps (Some "Su") (Some "m-7") [] (Some "gpt-4") true)]
  /\ render None
       (run demo_provider demo_tenant "c-1" "gpt-4"
          [StreamFinished (Some (mkResponseObject "Sure")); StampEffect]
          (setIsLoading true demo_answered))
     = map (render_message (setIsLoading true demo_answered))
           (messagesWithSources (setIsLoading true demo_answered))
       ++ [AssistantElement
             (mkProps (Some "Sure") (Some "m-7") [] (Some "gpt-4") false)].
Proof.
  apply (final_answer_replaces_provisional demo_provider demo_tenant "c-1"
           "gpt-4" (Some "Su") None (setIsLoading true demo_answered)
           (mkPending "m-7" (Some "gpt-4")) (mkResponseObject "Sure"));
    reflexivity.
Defined.

End ChatbotFacts.

(** * Properties of the tenant-setup route *)

Module TenantSetupFacts.
Import TenantSetup.

(** ** Trimming *)

Lemma trimStart_nil (s : JsString) : trimStart s = [] <-> blank s = true.
Proof.
  induction s as [|c s IH]; simpl; [tauto|].
  destruct (isWhiteSpace c); simpl; [exact IH|].
  split; discriminate.
Qed.

Lemma trimStart_head (s : JsString) (c : N) (t : JsString) :
  trimStart s = c :: t -> isWhiteSpace c = false.
Proof.
  induction s as [|d s IH]; simpl; [discriminate|].
  destruct (isWhiteSpace d) eqn:E; [exact IH|].
  intros H. injection H as -> _. exact E.
Qed.

Lemma blank_rev (s : JsString) : blank (rev s) = blank s.
Proof.
  unfold blank. apply eq_true_iff_eq. rewrite !forallb_forall.
  split; intros H x Hx; apply H; [apply -> in_rev | apply <- in_rev]; exact Hx.
Qed.

(** Trimming leaves nothing exactly of the strings that are empty or all
    whitespace. *)
Lemma trim_nil (s : JsString) : trim s = [] <-> blank s = true.
Proof.
  unfold trim, trimEnd. split.
  - intros H. apply (f_equal (@rev N)) in H. rewrite rev_involutive in H.
    simpl in H. apply trimStart_nil in H. rewrite blank_rev in H.
    destruct (trimStart s) as [|c t] eqn:E.
    + now apply trimStart_nil.
    + apply trimStart_head in E. simpl in H. rewrite E in H. discriminate.
  - intros H. apply trimStart_nil in H. rewrite H. reflexivity.
Qed.

Lemma name_schema_blank (s : JsString) :
  blank s = true -> name_schema (NameString s) = throw ZodError.
Proof.
  intros H. apply trim_nil in H. unfold name_schema. rewrite H. reflexivity.
Qed.

Lemma name_schema_named (s : JsString) :
  blank s = false -> name_schema (NameString s) = ret (trim s).
Proof.
  intros H. unfold name_schema.
  destruct (trim s) as [|c t] eqn:E; [|reflexivity].
  apply trim_nil in E. congruence.
Qed.

(** ** Further properties of trimming and of the schema *)

Lemma trimStart_split (s : JsString) :
  exists pre, s = pre ++ trimStart s /\ blank pre = true.
Proof.
  induction s as [|c s [pre [Hs Hpre]]]; [now exists []|].
  simpl. destruct (isWhiteSpace c) eqn:E.
  - exists (c :: pre). simpl. rewrite E, Hpre. split; [now f_equal|easy].
  - now exists [].
Qed.

Lemma trimEnd_split (s : JsString) :
  exists post, s = trimEnd s ++ post /\ blank post = true.
Proof.
  destruct (trimStart_split (rev s)) as [pre [Hs Hpre]].
  exists (rev pre). split.
  - unfold trimEnd. rewrite <- rev_app_distr, <- Hs. now rewrite rev_involutive.
  - now rewrite blank_rev.
Qed.

Lemma trim_no_outer_whitespace (s : JsString) :
  no_outer_whitespace (trim s) = true.
Proof.
  unfold trim. set (u := trimStart s).
  destruct (trimEnd_split u) as [post [Hu _]].
  destruct (trimEnd u) as [|c t] eqn:Ev; [reflexivity|].
  unfold no_outer_whitespace. apply andb_true_intro. split.
  - apply negb_true_iff. apply (trimStart_head s c (t ++ post)). exact Hu.
  - apply negb_true_iff. unfold trimEnd in Ev.
    destruct (trimStart (rev u)) as [|d r] eqn:Er; [discriminate|].
    simpl in Ev. rewrite <- Ev, last_last.
    now apply trimStart_head in Er.
Qed.

Lemma trim_fixed (n : JsString) :
  no_outer_whitespace n = true -> trim n = n.
Proof.
  destruct n as [|c t]; [reflexivity|].
  unfold no_outer_whitespace. intros H.
  apply andb_prop in H as [Hc Hl]. apply negb_true_iff in Hc, Hl.
  unfold trim. cbn [trimStart]. rewrite Hc. unfold trimEnd.
  assert (Hne : c :: t <> []) by discriminate.
  rewrite (app_removelast_last c Hne) at 1. rewrite rev_app_distr.
  cbn [rev app trimStart]. rewrite Hl.
  change (List.last (c :: t) c :: rev (removelast (c :: t)))
    with (rev [List.last (c :: t) c] ++ rev (removelast (c :: t))).
  rewrite <- rev_app_distr, rev_involutive.
  symmetry. now apply app_removelast_last.
Qed.

(** X18.  [trim] cuts whitespace off both ends and nothing else: the string is
    its trimmed form between two runs of whitespace, and the trimmed form
    neither starts nor ends with whitespace, so trimming again changes
    nothing. *)
Theorem trim_cuts_outer_whitespace (s : JsString) :
  (exists pre post,
      s = pre ++ trim s ++ post /\ blank pre = true /\ blank post = true)
  /\ no_outer_whitespace (trim s) = true
  /\ trim (trim s) = trim s.
Proof.
  split; [|split].
  - destruct (trimStart_split s) as [pre [Hs Hpre]].
    destruct (trimEnd_split (trimStart s)) as [post [Hu Hpost]].
    exists pre, post. unfold trim. rewrite <- Hu. auto.
  - apply trim_no_outer_whitespace.
  - apply trim_fixed, trim_no_outer_whitespace.
Qed.

(** X19.  A name the schema accepts is the trimmed input, is not empty, has no
    whitespace at either end, and is accepted unchanged when validated
    again. *)
Theorem accepted_name_revalidates (s n : JsString) (w : World) :
  snd (name_schema (NameString s) w) = inr n ->
  n = trim s
  /\ n <> []
  /\ no_outer_whitespace n = true
  /\ name_schema (NameString n) w = (w, inr n).
Proof.
  intros H. destruct (blank s) eqn:Eb.
  - rewrite (name_schema_blank s Eb) in H. discriminate.
  - rewrite (name_schema_named s Eb) in H. injection H as <-.
    assert (Hne : trim s <> []).
    { intros E. apply trim_nil in E. congruence. }
    split; [reflexivity|]. split; [exact Hne|].
    split; [apply trim_no_outer_whitespace|].
    assert (Hb : blank (trim s) = false).
    { destruct (blank (trim s)) eqn:E; [|reflexivity].
      apply trim_nil in E.
      rewrite (trim_fixed _ (trim_no_outer_whitespace s)) in E. contradiction. }
    rewrite (name_schema_named _ Hb).
    now rewrite (trim_fixed _ (trim_no_outer_whitespace s)).
Qed.

(** ** The handler *)

(** The handler's run on a named tenant, step by step, whatever the
    backend does. *)
Lemma POST_named (w : World) (user : Session) (s : JsString) :
  blank s = false ->
  POST (mkRequest (Some user) (BodyObject (NameString s))) w
  = (_ <- record CallRequireSession ;;
     _ <- record CallRequestJson ;;
     created <- createTenant (user_id user) (trim s) ;;
     let '(profileId, tenantId) := created in
     _ <- setCurrentProfileId (user_id user) profileId ;;
     ret (Response_json tenantId)) w.
Proof.
  intros H. unfold POST, requireSession, request_json, setupSchema_parse.
  unfold bind, record, ret.
  cbn -[name_schema trim createTenant setCurrentProfileId].
  rewrite (name_schema_named s H). reflexivity.
Qed.

(** A body that is not an object with a string [name] is refused before
    any service operation: nothing is stored. *)
Lemma POST_unusable_body (w : World) (user : Session) (b : RequestBody) :
  (forall s, b <> BodyObject (NameString s)) ->
  (snd (POST (mkRequest (Some user) b) w) = inl SyntaxError
   \/ snd (POST (mkRequest (Some user) b) w) = inl ZodError)
  /\ store (fst (POST (mkRequest (Some user) b) w)) = store w.
Proof.
  intros Hb. destruct b as [| |[| |s]]; try (now split; [auto|]).
  now destruct (Hb s).
Qed.

(** C4.  For a request with a valid session whose body carries a string
    [name]: when the name is empty or all whitespace, the handler throws
    the validation error after reading the body, and the store is as it
    was; otherwise, on a backend that carries out its operations, a tenant
    with the trimmed name and a profile of the user in that tenant are
    added under the next free identifiers, the user's current-profile
    pointer is that profile, and the response is [{ id }] with the new
    tenant's identifier. *)
Theorem C4_tenant_setup (w : World) (user : Session) (s : JsString) :
  let request := mkRequest (Some user) (BodyObject (NameString s)) in
  (blank s = true ->
   snd (POST request w) = inl ZodError
   /\ store (fst (POST request w)) = store w
   /\ trace (fst (POST request w))
      = trace w ++ [CallRequireSession; CallRequestJson])
  /\
  (blank s = false ->
   healthy w ->
   let tenantId := length (tenants (store w)) in
   let profileId := length (profiles (store w)) in
   snd (POST request w) = inr (Response_json tenantId)
   /\ store (fst (POST request w))
      = mkStore
          (tenants (store w) ++ [mkTenantRow tenantId (trim s)])
          (profiles (store w) ++ [mkProfileRow profileId (user_id user) tenantId])
          (<[user_id user := profileId]> (currentProfileId (store w)))).
Proof.
  intros request. split.
  - intros Hblank. unfold request, POST, requireSession, request_json,
      setupSchema_parse.
    unfold bind, record, ret. cbn -[name_schema trim].
    rewrite (name_schema_blank s Hblank).
    unfold throw. simpl. rewrite <- app_assoc.
    repeat split.
  - intros Hname Hup. unfold request. rewrite (POST_named w user s Hname).
    unfold bind, record, createTenant, setCurrentProfileId, failing, getStore,
      putStore, throw, ret, bind; simpl.
    rewrite (Hup OpCreateTenant). simpl.
    rewrite (Hup OpSetCurrentProfileId). simpl. split; reflexivity.
Qed.

(** C8.  A request without a valid session is rejected by the first call
    of the handler: it throws [Unauthorized], the only call made is
    [requireSession] (the body is never read, no service operation runs),
    and the store, with its tenants, profiles and current-profile
    pointers, is as it was.  This holds for every body and backend. *)
Theorem C8_no_session_rejected_first (w : World) (request : NextRequest) :
  session request = None ->
  snd (POST request w) = inl Unauthorized
  /\ trace (fst (POST request w)) = trace w ++ [CallRequireSession]
  /\ store (fst (POST request w)) = store w.
Proof.
  intros Hnone. unfold POST, requireSession. rewrite Hnone.
  unfold bind, record, throw. simpl. repeat split.
Qed.

(** C10.  The handler is not atomic.  When the name is valid, the backend
    creates the tenant but fails to move the pointer, the handler ends
    with the service error and no response, the calls were made in the
    order [createTenant] then [setCurrentProfileId], the store holds the
    new tenant and the new profile, and every current-profile pointer is as
    it was before the request. *)
Theorem C10_pointer_failure_leaves_tenant (w : World) (user : Session)
    (s : JsString) :
  let request := mkRequest (Some user) (BodyObject (NameString s)) in
  let tenantId := length (tenants (store w)) in
  let profileId := length (profiles (store w)) in
  blank s = false ->
  outage w OpCreateTenant = false ->
  outage w OpSetCurrentProfileId = true ->
  snd (POST request w) = inl ServiceError
  /\ trace (fst (POST request w))
     = trace w ++ [CallRequireSession; CallRequestJson;
                   CallCreateTenant (user_id user) (trim s);
                   CallSetCurrentProfileId (user_id user) profileId]
  /\ tenants (store (fst (POST request w)))
     = tenants (store w) ++ [mkTenantRow tenantId (trim s)]
  /\ profiles (store (fst (POST request w)))
     = profiles (store w) ++ [mkProfileRow profileId (user_id user) tenantId]
  /\ currentProfileId (store (fst (POST request w)))
     = currentProfileId (store w).
Proof.
  intros request tenantId profileId Hname Hcreate Hpointer.
  unfold request. rewrite (POST_named w user s Hname).
  unfold bind, record, createTenant, setCurrentProfileId, failing, getStore,
    putStore, throw, ret, bind; simpl.
  rewrite Hcreate. simpl. rewrite Hpointer. simpl.
  rewrite <- !app_assoc. repeat split.
Qed.

(** ** Further properties of the handler *)

(** The three ways a well-formed request can end, by what the backend
    does. *)
Lemma POST_outcome (w : World) (user : Session) (s : JsString) :
  blank s = false ->
  POST (mkRequest (Some user) (BodyObject (NameString s))) w
  = let tenantId := length (tenants (store w)) in
    let profileId := length (profiles (store w)) in
    let created :=
      mkStore (tenants (store w) ++ [mkTenantRow tenantId (trim s)])
              (profiles (store w)
               ++ [mkProfileRow profileId (user_id user) tenantId])
              (currentProfileId (store w)) in
    if outage w OpCreateTenant then
      (mkWorld (store w)
               (trace w ++ [CallRequireSession; CallRequestJson;
                            CallCreateTenant (user_id user) (trim s)])
               (outage w),
       inl ServiceError)
    else if outage w OpSetCurrentProfileId then
      (mkWorld created
               (trace w ++ [CallRequireSession; CallRequestJson;
                            CallCreateTenant (user_id user) (trim s);
                            CallSetCurrentProfileId (user_id user) profileId])
               (outage w),
       inl ServiceError)
    else
      (mkWorld (mkStore (tenants created) (profiles created)
                        (<[user_id user := profileId]>
                           (currentProfileId (store w))))
               (trace w ++ [CallRequireSession; CallRequestJson;
                            CallCreateTenant (user_id user) (trim s);
                            CallSetCurrentProfileId (user_id user) profileId])
               (outage w),
       inr (Response_json tenantId)).
Proof.
  intros Hname. rewrite (POST_named w user s Hname).
  unfold bind, record, createTenant, setCurrentProfileId, failing, getStore,
    putStore, throw, ret, bind; simpl.
  destruct (outage w OpCreateTenant); simpl.
  - now rewrite <- !app_assoc.
  - destruct (outage w OpSetCurrentProfileId); simpl;
      now rewrite <- !app_assoc.
Qed.

Lemma accepted_name_inv (b : RequestBody) (n : JsString) :
  accepted_name b = Some n ->
  exists s, b = BodyObject (NameString s) /\ blank s = false /\ n = trim s.
Proof.
  destruct b as [| |[| |s]]; try discriminate. simpl.
  destruct (blank s) eqn:E; [discriminate|].
  intros H. injection H as <-. now exists s.
Qed.

Lemma POST_rejected (w : World) (request : NextRequest) :
  session request = None \/ accepted_name (body request) = None ->
  exists e calls,
    POST request w
    = (mkWorld (store w) (trace w ++ calls) (outage w), inl e)
    /\ existsb is_service_call calls = false
    /\ e <> ServiceError.
Proof.
  intros H. destruct request as [[user|] b]; simpl in H.
  - destruct H as [H|H]; [discriminate|].
    destruct b as [| |[| |s]]; simpl in H.
    + exists SyntaxError, [CallRequireSession; CallRequestJson].
      unfold POST, bind, requireSession, request_json, record, throw, bind.
      simpl. now rewrite <- app_assoc.
    + exists ZodError, [CallRequireSession; CallRequestJson].
      unfold POST, bind, requireSession, request_json, record, throw, bind.
      simpl. now rewrite <- app_assoc.
    + exists ZodError, [CallRequireSession; CallRequestJson].
      unfold POST, bind, requireSession, request_json, record, throw, bind.
      simpl. now rewrite <- app_assoc.
    + exists ZodError, [CallRequireSession; CallRequestJson].
      unfold POST, bind, requireSession, request_json, record, throw, bind.
      simpl. now rewrite <- app_assoc.
    + destruct (blank s) eqn:Eb; [|discriminate].
      exists ZodError, [CallRequireSession; CallRequestJson].
      unfold POST, requireSession, request_json, setupSchema_parse.
      unfold bind, record, ret. cbn -[name_schema trim].
      rewrite (name_schema_blank s Eb). unfold throw. simpl.
      now rewrite <- app_assoc.
  - exists Unauthorized, [CallRequireSession].
    unfold POST, bind, requireSession, record, throw, bind. simpl.
    repeat split. discriminate.
Qed.

(** X20.  A request that lacks a session, or whose body does not carry a name
    the schema accepts, ends in an error that is not a service error,
    without any service operation having been called and with the store
    untouched. *)
Theorem rejected_before_service (w : World) (request : NextRequest) :
  session request = None \/ accepted_name (body request) = None ->
  exists e calls,
    POST request w
    = (mkWorld (store w) (trace w ++ calls) (outage w), inl e)
    /\ existsb is_service_call calls = false
    /\ e <> ServiceError.
Proof. apply POST_rejected. Qed.

(** X21.  A response is the last thing that happens.  When the handler returns
    one, the request had a session and a name the schema accepts, the four
    calls were made in the order of the code, [createTenant] got the
    session's user and the trimmed name, [setCurrentProfileId] got the same
    user, and both service operations were carried out. *)
Theorem response_only_after_all_steps
    (w : World) (request : NextRequest) (response : Response) :
  snd (POST request w) = inr response ->
  exists user n profileId,
    session request = Some user
    /\ accepted_name (body request) = Some n
    /\ trace (fst (POST request w))
       = trace w ++ [CallRequireSession; CallRequestJson;
                     CallCreateTenant (user_id user) n;
                     CallSetCurrentProfileId (user_id user) profileId]
    /\ outage w OpCreateTenant = false
    /\ outage w OpSetCurrentProfileId = false.
Proof.
  intros H.
  destruct (session request) as [user|] eqn:Es.
  - destruct (accepted_name (body request)) as [n|] eqn:En.
    + destruct (accepted_name_inv _ _ En) as [s [Hb [Hblank ->]]].
      destruct request as [se b]. simpl in Es, Hb. subst se b.
      rewrite (POST_outcome w user s Hblank) in *. cbv zeta in *.
      exists user, (trim s), (length (profiles (store w))).
      destruct (outage w OpCreateTenant); [discriminate|].
      destruct (outage w OpSetCurrentProfileId); [discriminate|].
      repeat split.
    + destruct (POST_rejected w request (or_intror En))
        as [e [calls [Hp _]]].
      rewrite Hp in H. discriminate.
  - destruct (POST_rejected w request (or_introl Es))
      as [e [calls [Hp _]]].
    rewrite Hp in H. discriminate.
Qed.

(** X22.  When [createTenant] rejects, the handler stops there: it ends with
    the service error, [setCurrentProfileId] is never called, and the store
    is as it was. *)
Theorem createTenant_failure_stops_handler
    (w : World) (user : Session) (s : JsString) :
  blank s = false ->
  outage w OpCreateTenant = true ->
  POST (mkRequest (Some user) (BodyObject (NameString s))) w
  = (mkWorld (store w)
             (trace w ++ [CallRequireSession; CallRequestJson;
                          CallCreateTenant (user_id user) (trim s)])
             (outage w),
     inl ServiceError).
Proof.
  intros Hname Hdown. rewrite (POST_outcome w user s Hname). cbv zeta.
  now rewrite Hdown.
Qed.

(** X23.  The handler touches nobody else.  Whatever the request and the
    backend, the tenants and profiles that existed are still there, first
    and in order, and the current-profile pointer of every user other than
    the session's is as it was. *)
Theorem other_users_untouched
    (w : World) (request : NextRequest) (other : UserId) :
  (forall user, session request = Some user -> user_id user <> other) ->
  tenants (store w) `prefix_of` tenants (store (fst (POST request w)))
  /\ profiles (store w) `prefix_of` profiles (store (fst (POST request w)))
  /\ currentProfileId (store (fst (POST request w))) !! other
     = currentProfileId (store w) !! other.
Proof.
  intros Hother.
  destruct (session request) as [user|] eqn:Es.
  - destruct (accepted_name (body request)) as [n|] eqn:En.
    + destruct (accepted_name_inv _ _ En) as [s [Hb [Hblank ->]]].
      destruct request as [se b]. simpl in Es, Hb. subst se b.
      rewrite (POST_outcome w user s Hblank). cbv zeta.
      destruct (outage w OpCreateTenant); simpl; [easy|].
      destruct (outage w OpSetCurrentProfileId); simpl.
      * repeat split; apply prefix_app_r; reflexivity.
      * repeat split; try (apply prefix_app_r; reflexivity).
        apply lookup_insert_ne. now apply Hother.
    + destruct (POST_rejected w request (or_intror En))
        as [e [calls [Hp _]]].
      rewrite Hp. easy.
  - destruct (POST_rejected w request (or_introl Es))
      as [e [calls [Hp _]]].
    rewrite Hp. easy.
Qed.

Lemma C4_witness :
  (snd (POST (demo_request "  ") demo_world) = inl ZodError
   /\ store (fst (POST (demo_request "  ") demo_world)) = store demo_world
   /\ trace (fst (POST (demo_request "  ") demo_world))
      = [CallRequireSession; CallRequestJson])
  /\
  (snd (POST (demo_request " Acme ") demo_world) = inr (Response_json 0)
   /\ store (fst (POST (demo_request " Acme ") demo_world))
      = mkStore [mkTenantRow 0 (js "Acme")] [mkProfileRow 0 "u-1" 0]
                (<["u-1" := 0%nat]> ∅)).
Proof.
  split.
  - apply (C4_tenant_setup demo_world (mkSession "u-1") (js "  ")).
    reflexivity.
  - apply (C4_tenant_setup demo_world (mkSession "u-1") (js " Acme ")).
    + reflexivity.
    + intros op. reflexivity.
Defined.

Lemma C8_witness :
  snd (POST (mkRequest None (BodyObject (NameString (js "Acme")))) demo_world)
  = inl Unauthorized
  /\ trace (fst (POST (mkRequest None (BodyObject (NameString (js "Acme"))))
                   demo_world))
     = [CallRequireSession]
  /\ store (fst (POST (mkRequest None (BodyObject (NameString (js "Acme"))))
                   demo_world))
     = store demo_world.
Proof.
  apply (C8_no_session_rejected_first demo_world
           (mkRequest None (BodyObject (NameString (js "Acme"))))).
  reflexivity.
Defined.

Lemma C10_witness :
  snd (POST (demo_request "Acme") demo_world_pointer_down) = inl ServiceError
  /\ trace (fst (POST (demo_request "Acme") demo_world_pointer_down))
     = [CallRequireSession; CallRequestJson;
        CallCreateTenant "u-1" (js "Acme");
        CallSetCurrentProfileId "u-1" 0]
  /\ tenants (store (fst (POST (demo_request "Acme") demo_world_pointer_down)))
     = [mkTenantRow 0 (js "Acme")]
  /\ profiles (store (fst (POST (demo_request "Acme") demo_world_pointer_down)))
     = [mkProfileRow 0 "u-1" 0]
  /\ currentProfileId
       (store (fst (POST (demo_request "Acme") demo_world_pointer_down)))
     = ∅.
Proof.
  apply (C10_pointer_failure_leaves_tenant demo_world_pointer_down
           (mkSession "u-1") (js "Acme"));
    reflexivity.
Defined.

Lemma accepted_name_witness :
  js "Acme" = trim (js " Acme ")
  /\ js "Acme" <> []
  /\ no_outer_whitespace (js "Acme") = true
  /\ name_schema (NameString (js "Acme")) demo_world
     = (demo_world, inr (js "Acme")).
Proof.
  apply (accepted_name_revalidates (js " Acme ") (js "Acme") demo_world).
  reflexivity.
Defined.

Lemma rejected_before_service_witness :
  exists e calls,
    POST (mkRequest (Some (mkSession "u-1")) BodyNotJson) demo_world
    = (mkWorld (store demo_world) (trace demo_world ++ calls)
               (outage demo_world), inl e)
    /\ existsb is_service_call calls = false
    /\ e <> ServiceError.
Proof.
  apply (rejected_before_service demo_world
           (mkRequest (Some (mkSession "u-1")) BodyNotJson)).
  right. reflexivity.
Defined.

Lemma response_only_after_all_steps_witness :
  exists user n profileId,
    session (demo_request " Acme ") = Some user
    /\ accepted_name (body (demo_request " Acme ")) = Some n
    /\ trace (fst (POST (demo_request " Acme ") demo_world))
       = trace demo_world ++ [CallRequireSession; CallRequestJson;
                              CallCreateTenant (user_id user) n;
                              CallSetCurrentProfileId (user_id user) profileId]
    /\ outage demo_world OpCreateTenant = false
    /\ outage demo_world OpSetCurrentProfileId = false.
Proof.
  apply (response_only_after_all_steps demo_world (demo_request " Acme ")
           (Response_json 0)).
  reflexivity.
Defined.

Lemma createTenant_failure_witness :
  POST (demo_request "Acme") demo_world_create_down
  = (mkWorld (store demo_world_create_down)
             (trace demo_world_create_down
              ++ [CallRequireSession; CallRequestJson;
                  CallCreateTenant "u-1" (trim (js "Acme"))])
             (outage demo_world_create_down),
     inl ServiceError).
Proof.
  apply (createTenant_failure_stops_handler demo_world_create_down
           (mkSession "u-1") (js "Acme"));
    reflexivity.
Defined.

Lemma other_users_untouched_witness :
  tenants (store demo_world)
    `prefix_of` tenants (store (fst (POST (demo_request "Acme") demo_world)))
  /\ profiles (store demo_world)
       `prefix_of` profiles (store (fst (POST (demo_request "Acme") demo_world)))
  /\ currentProfileId (store (fst (POST (demo_request "Acme") demo_world)))
       !! "u-2"
     = currentProfileId (store demo_world) !! "u-2".
Proof.
  apply (other_users_untouched demo_world (demo_request "Acme") "u-2").
  intros user H. injection H as <-. discriminate.
Defined.

End TenantSetupFacts.
